(** * 3dhub.io web UI: table data, visualisation data, download and upload handlers

    A shallow embedding of the request handlers of the web front end
    ([tableViewHandler], [visData], [downloadHandler], [uploadDataHandler])
    and of the URL helpers of [common/userinput.go]
    ([GetOD], [GetTable], [GetODT]), followed by the properties of the
    version resolution / query construction / result caching core that the
    specification states about them. *)

From Stdlib Require Import ZArith String Ascii List Lia Bool DecimalString.
From stdpp Require Import base option list gmap strings.
Import ListNotations.

Local Open Scope string_scope.
Local Open Scope list_scope.
Local Open Scope Z_scope.

(** ** Go values *)

(** Go's [error]: nil, or a value carrying a message. *)
Definition error := option string.
Definition errors_New (msg : string) : error := Some msg.

(** Go's [int] on the 64 bit targets the server is built for: arithmetic
    wraps around silently. *)
Module GoInt.
Definition min_int : Z := - 2 ^ 63.
Definition max_int : Z := 2 ^ 63 - 1.
Definition wrap (x : Z) : Z := (x + 2 ^ 63) mod 2 ^ 64 - 2 ^ 63.
Definition add (x y : Z) : Z := wrap (x + y).
Definition in_range (x : Z) : Prop := min_int <= x <= max_int.
End GoInt.

(** A Go string is a sequence of bytes: [[]byte(s)]. *)
Definition bytes_of_string (s : string) : list Z :=
  map (fun c => Z.of_N (N_of_ascii c)) (list_ascii_of_string s).

(** ** crypto/md5 and encoding/hex

    The cache key of [visData] is built with [md5.Sum] and
    [hex.EncodeToString]; both are written out so that keys can be
    computed. *)
Module MD5.
Definition mask32 : Z := 0xffffffff.
Definition add32 (x y : Z) : Z := Z.land (x + y) mask32.
Definition not32 (x : Z) : Z := Z.lxor x mask32.
Definition rotl32 (x : Z) (n : Z) : Z :=
  Z.lor (Z.land (Z.shiftl x n) mask32) (Z.shiftr x (32 - n)).

(** Per-round shift amounts. *)
Definition shifts : list Z :=
  [7; 12; 17; 22; 7; 12; 17; 22; 7; 12; 17; 22; 7; 12; 17; 22;
   5; 9; 14; 20; 5; 9; 14; 20; 5; 9; 14; 20; 5; 9; 14; 20;
   4; 11; 16; 23; 4; 11; 16; 23; 4; 11; 16; 23; 4; 11; 16; 23;
   6; 10; 15; 21; 6; 10; 15; 21; 6; 10; 15; 21; 6; 10; 15; 21].

(** The sine table: floor(2^32 * |sin(i + 1)|). *)
Definition sines : list Z :=
  [3614090360; 3905402710; 606105819; 3250441966; 4118548399; 1200080426;
   2821735955; 4249261313; 1770035416; 2336552879; 4294925233; 2304563134;
   1804603682; 4254626195; 2792965006; 1236535329; 4129170786; 3225465664;
   643717713; 3921069994; 3593408605; 38016083; 3634488961; 3889429448;
   568446438; 3275163606; 4107603335; 1163531501; 2850285829; 4243563512;
   1735328473; 2368359562; 4294588738; 2272392833; 1839030562; 4259657740;
   2763975236; 1272893353; 4139469664; 3200236656; 681279174; 3936430074;
   3572445317; 76029189; 3654602809; 3873151461; 530742520; 3299628645;
   4096336452; 1126891415; 2878612391; 4237533241; 1700485571; 2399980690;
   4293915773; 2240044497; 1873313359; 4264355552; 2734768916; 1309151649;
   4149444226; 3174756917; 718787259; 3951481745].

Record digest := Digest { dA : Z; dB : Z; dC : Z; dD : Z }.

Definition init : digest :=
  Digest 0x67452301 0xefcdab89 0x98badcfe 0x10325476.

(** Little-endian decoding of the sixteen 32 bit words of a block. *)
Fixpoint words_of_block (n : nat) (b : list Z) : list Z :=
  match n, b with
  | S n', b0 :: b1 :: b2 :: b3 :: rest =>
      (b0 + Z.shiftl b1 8 + Z.shiftl b2 16 + Z.shiftl b3 24)
        :: words_of_block n' rest
  | _, _ => []
  end.

Definition round_fg (i : Z) (b c d : Z) : Z * Z :=
  if i <? 16 then (Z.lor (Z.land b c) (Z.land (not32 b) d), i)
  else if i <? 32 then
    (Z.lor (Z.land d b) (Z.land (not32 d) c), (5 * i + 1) mod 16)
  else if i <? 48 then (Z.lxor (Z.lxor b c) d, (3 * i + 5) mod 16)
  else (Z.lxor c (Z.lor b (not32 d)), (7 * i) mod 16).

Definition step (m : list Z) (st : digest) (i : Z) : digest :=
  let '(Digest a b c d) := st in
  let '(f, g) := round_fg i b c d in
  let k := nth (Z.to_nat i) sines 0 in
  let s := nth (Z.to_nat i) shifts 0 in
  let x := nth (Z.to_nat g) m 0 in
  let f' := add32 (add32 (add32 f a) k) x in
  Digest d (add32 b (rotl32 f' s)) b c.

Definition block (st : digest) (blk : list Z) : digest :=
  let m := words_of_block 16 blk in
  let st' := fold_left (step m) (map Z.of_nat (seq 0 64)) st in
  Digest (add32 (dA st) (dA st')) (add32 (dB st) (dB st'))
         (add32 (dC st) (dC st')) (add32 (dD st) (dD st')).

Fixpoint le_bytes (n : nat) (x : Z) : list Z :=
  match n with
  | O => []
  | S n' => Z.land x 255 :: le_bytes n' (Z.shiftr x 8)
  end.

(** Padding: a 0x80 byte, zeros up to 56 mod 64, the bit length on 64
    bits, little-endian. *)
Definition pad (msg : list Z) : list Z :=
  let len := Z.of_nat (length msg) in
  let zeros := Z.to_nat ((55 - len) mod 64) in
  msg ++ [128] ++ repeat 0 zeros ++ le_bytes 8 (Z.land (8 * len) (2 ^ 64 - 1)).

Fixpoint blocks (n : nat) (st : digest) (data : list Z) : digest :=
  match n with
  | O => st
  | S n' => blocks n' (block st (firstn 64 data)) (skipn 64 data)
  end.

(** [md5.Sum]: the sixteen bytes of the digest. *)
Definition Sum (msg : list Z) : list Z :=
  let data := pad msg in
  let st := blocks (length data / 64)%nat init data in
  le_bytes 4 (dA st) ++ le_bytes 4 (dB st) ++ le_bytes 4 (dC st)
    ++ le_bytes 4 (dD st).
End MD5.

Module Hex.
Definition hextable : string := "0123456789abcdef".

Definition digit (v : Z) : ascii :=
  match String.get (Z.to_nat v) hextable with
  | Some c => c
  | None => "0"%char
  end.

(** [hex.EncodeToString]: two digits per byte, high nibble first. *)
Fixpoint EncodeToString (src : list Z) : string :=
  match src with
  | [] => ""
  | v :: rest =>
      String (digit (Z.shiftr v 4))
        (String (digit (Z.land v 15)) (EncodeToString rest))
  end.
End Hex.

Definition md5_hex (s : string) : string :=
  Hex.EncodeToString (MD5.Sum (bytes_of_string s)).


(** ** strings.Split on a one-byte separator *)
Fixpoint strings_Split (s : string) (sep : ascii) : list string :=
  match s with
  | EmptyString => [""]
  | String c rest =>
      if Ascii.eqb c sep then "" :: strings_Split rest sep
      else match strings_Split rest sep with
           | [] => [String c ""]
           | x :: xs => String c x :: xs
           end
  end.

(** [strconv.ParseBool]. *)
Definition strconv_ParseBool (str : string) : bool * error :=
  if bool_decide (str ∈ ["1"; "t"; "T"; "TRUE"; "true"; "True"]) then (true, None)
  else if bool_decide (str ∈ ["0"; "f"; "F"; "FALSE"; "false"; "False"])
  then (false, None)
  else (false, Some "strconv.ParseBool: invalid syntax").

(** ** Data model *)

(** What a handle stands for.  [com.MinioHandle] yields the stored object
    itself, [com.OpenMinioObject] an SQLite connection on the stored object,
    [sqlite.Open] an SQLite connection on a local file (identified here by
    the file's content). *)
Inductive Handle :=
| MinioObject (bucket id : string)
| MinioSQLite (bucket id : string)
| LocalSQLite (content : string).

#[global] Instance Handle_eq_dec : EqDecision Handle.
Proof. solve_decision. Defined.

(** A Go pointer to a handle: [None] is nil. *)
Definition Conn := option Handle.

(** [com.WhereClause]. *)
Record WhereClause := mkWhereClause {
  wc_Column : string;
  wc_Type : string;
  wc_Value : string }.

(** Modelled from the spec: the declaration of [com.SQLiteRecordSet] is not
    among the sources; the handlers read [RowCount] and write [TotalRows],
    and the specification describes the rows as ordered sequences of column
    name/value pairs. *)
Definition DataRow := list (string * string).

Record SQLiteRecordSet := mkRecordSet {
  Records : list DataRow;
  RowCount : Z;
  TotalRows : Z }.

Definition set_TotalRows (n : Z) (d : SQLiteRecordSet) : SQLiteRecordSet :=
  mkRecordSet (Records d) (RowCount d) n.

(** The part of [com.SQLiteDBinfo] that [visData] uses. *)
Record SQLiteDBinfo := mkDBinfo {
  MinioBkt : string;
  MinioId : string;
  Info_Tables : list string }.

Definition set_Info_Tables (t : list string) (d : SQLiteDBinfo) : SQLiteDBinfo :=
  mkDBinfo (MinioBkt d) (MinioId d) t.

(** The arguments of [com.AddDatabase], in order: one metadata row. *)
Record DatabaseRecord := mkDatabaseRecord {
  db_owner : string;
  db_folder : string;
  db_name : string;
  db_version : Z;
  db_sha256 : string;
  db_size : Z;
  db_public : bool;
  db_bucket : string;
  db_minioID : string }.

(** The arguments of [com.StoreMinioObject]. *)
Record StoredObject := mkStoredObject {
  so_bucket : string;
  so_id : string;
  so_content : string;
  so_contentType : string }.

(** The multipart file of an upload: [r.FormFile("database")]. *)
Record FilePart := mkFilePart {
  Filename : string;
  Content : string;
  Header_ContentType : list string;
  ReadErr : error }.

(** An incoming request, as far as the handlers look at it.  [Session] is
    [session.Get(r)] together with its "UserName" attribute. *)
Record Request := mkRequest {
  URL_Path : string;
  Form : gmap string string;
  PostForm : gmap string string;
  ParseFormErr : error;
  Session : option (option string);
  FormFile : option FilePart }.

Definition FormValue (r : Request) (key : string) : string :=
  default "" (Form r !! key).

Definition PostFormValue (r : Request) (key : string) : string :=
  default "" (PostForm r !! key).

(** The recurring session block: the logged in user ("" when there is
    none) and whether the session is valid.  Removing a session that has no
    user name belongs to the session store and is not modelled. *)
Definition sessionUser (r : Request) : string * bool :=
  match Session r with
  | Some (Some u) => (u, true)
  | Some None => ("", false)
  | None => ("", false)
  end.

(** SQL statements sent to the embedded engine, in the order issued. *)
Inductive Query :=
| QTables (sdb : Conn)
| QReadSQLiteDB (sdb : Conn) (dbTable : string) (maxRows : Z)
| QReadSQLiteDBCols (sdb : Conn) (dbTable : string) (ignoreBinary ignoreNull : bool)
    (maxRows : Z) (filters : list WhereClause) (cols : list string)
| QGetSQLiteRowCount (sdb : Conn) (dbTable : string).

(** What a handler leaves on the wire. *)
Inductive Response :=
| NoOutput
| ErrorPage (status : Z) (msg : string)
| Body (bytes : string)
| Download (filename contentType content : string) (copyErr : error)
| UploadSucceeded (user : string)
| Panic (what : string).

Definition StatusBadRequest : Z := 400.
Definition StatusUnauthorized : Z := 401.
Definition StatusInternalServerError : Z := 500.

(** ** The state the handlers act on *)
Record World := mkWorld {
  open_handles : list Handle;
  queries : list Query;
  cache : gmap string string;
  databases : list DatabaseRecord;
  objects : list StoredObject;
  rng_draws : nat }.

Definition acquire (h : Handle) (w : World) : World :=
  mkWorld (h :: open_handles w) (queries w) (cache w) (databases w)
          (objects w) (rng_draws w).

Fixpoint remove_first (h : Handle) (l : list Handle) : list Handle :=
  match l with
  | [] => []
  | x :: l' => if decide (x = h) then l' else x :: remove_first h l'
  end.

Definition release (c : Conn) (w : World) : World :=
  match c with
  | None => w
  | Some h =>
      mkWorld (remove_first h (open_handles w)) (queries w) (cache w)
              (databases w) (objects w) (rng_draws w)
  end.

Definition issue (q : Query) (w : World) : World :=
  mkWorld (open_handles w) (queries w ++ [q]) (cache w) (databases w)
          (objects w) (rng_draws w).

Definition cache_put (k v : string) (w : World) : World :=
  mkWorld (open_handles w) (queries w) (<[k := v]> (cache w)) (databases w)
          (objects w) (rng_draws w).

Definition add_database (d : DatabaseRecord) (w : World) : World :=
  mkWorld (open_handles w) (queries w) (cache w) (databases w ++ [d])
          (objects w) (rng_draws w).

Definition add_object (o : StoredObject) (w : World) : World :=
  mkWorld (open_handles w) (queries w) (cache w) (databases w)
          (objects w ++ [o]) (rng_draws w).

Definition draw (w : World) : World :=
  mkWorld (open_handles w) (queries w) (cache w) (databases w)
          (objects w) (S (rng_draws w)).

(** ** The collaborators

    The [com] package apart from [userinput.go], the SQLite binding and the
    standard library calls whose outcome the handlers branch on.  Each field
    is what the call answers; what the call does to the state is written in
    the wrappers below. *)
Class Com := {
  (* validation *)
  ValidateUserFilename : string -> string -> error;
  ValidatePGTable : string -> error;
  ValidateDB : string -> error;
  (* URL helpers that are not in userinput.go *)
  GetODTV : Z -> Request -> string * string * string * Z * error;
  GetODV : Z -> Request -> string * string * Z * error;
  (* metadata store *)
  MinioBucketID : string -> string -> Z -> string -> string * string * error;
  CheckUserDBAccess : string -> string -> string -> SQLiteDBinfo * error;
  PrefUserMaxRows : string -> Z;
  HighestDBVersion : string -> string -> string -> Z * error;
  MinioUserBucket : string -> string * error;
  CheckMinioIDAvail : string -> string -> bool * error;
  AddDatabase_err : DatabaseRecord -> error;
  (* object store *)
  OpenMinioObject_err : string -> string -> error;
  MinioHandle_err : string -> string -> error;
  StoreMinioObject_res : StoredObject -> Z * error;
  io_Copy : Conn -> string * error;
  (* embedded SQL engine *)
  sqlite_Open_err : string -> error;
  Tables_res : Conn -> list string * error;
  ReadSQLiteDB_res : Conn -> string -> Z -> SQLiteRecordSet * error;
  ReadSQLiteDBCols_res :
    Conn -> string -> bool -> bool -> Z -> list WhereClause -> list string ->
    SQLiteRecordSet * error;
  GetSQLiteRowCount_res : Conn -> string -> Z * error;
  (* local files and library calls *)
  TempFile_err : error;
  TempFile_Write_err : string -> error;
  RandomString_nth : nat -> Z -> string;
  sha256_Sum256 : string -> string;
  url_QueryEscape : string -> string;
  json_Marshal : SQLiteRecordSet -> string * error;
  json_MarshalIndent : SQLiteRecordSet -> string * error }.

(** The Go idiom [if err != nil { ...; return }]. *)
Notation "'on_error' err 'as' e 'return' r 'otherwise' k" :=
  (match err with Some e => r | None => k end)
  (at level 10, e name, r at level 100, k at level 200, only parsing).

(** [defer f()]: [f] runs when the rest of the function is over, whichever
    way it ends. *)
Definition defer (cleanup : World -> World)
    (rest : World -> Response * World) (w : World) : Response * World :=
  let '(resp, w') := rest w in (resp, cleanup w').

Definition defer_opt (cleanup : World -> World)
    (rest : World -> option (Response * World)) (w : World)
  : option (Response * World) :=
  match rest w with
  | Some (resp, w') => Some (resp, cleanup w')
  | None => None
  end.

Section Handlers.
Context {com : Com}.

(** *** Stateful wrappers of the collaborators *)

(** A handle is returned exactly when the call reports no error; it is
    then open until it is closed. *)
Definition OpenMinioObject (bucket id : string) (w : World)
  : Conn * error * World :=
  match OpenMinioObject_err bucket id with
  | Some e => (None, Some e, w)
  | None => (Some (MinioSQLite bucket id), None,
             acquire (MinioSQLite bucket id) w)
  end.

Definition MinioHandle (bucket id : string) (w : World)
  : Conn * error * World :=
  match MinioHandle_err bucket id with
  | Some e => (None, Some e, w)
  | None => (Some (MinioObject bucket id), None,
             acquire (MinioObject bucket id) w)
  end.

Definition MinioHandleClose (userDB : Conn) (w : World) : World :=
  release userDB w.

Definition sqlite_Open (content : string) (w : World)
  : Conn * error * World :=
  match sqlite_Open_err content with
  | Some e => (None, Some e, w)
  | None => (Some (LocalSQLite content), None,
             acquire (LocalSQLite content) w)
  end.

Definition sqlite_Close (sdb : Conn) (w : World) : World := release sdb w.

Definition Tables (sdb : Conn) (w : World) : list string * error * World :=
  (Tables_res sdb, issue (QTables sdb) w).

Definition ReadSQLiteDB (sdb : Conn) (dbTable : string) (maxRows : Z)
    (w : World) : SQLiteRecordSet * error * World :=
  (ReadSQLiteDB_res sdb dbTable maxRows,
   issue (QReadSQLiteDB sdb dbTable maxRows) w).

Definition ReadSQLiteDBCols (sdb : Conn) (dbTable : string)
    (ignoreBinary ignoreNull : bool) (maxRows : Z)
    (filters : list WhereClause) (cols : list string) (w : World)
  : SQLiteRecordSet * error * World :=
  (ReadSQLiteDBCols_res sdb dbTable ignoreBinary ignoreNull maxRows filters cols,
   issue (QReadSQLiteDBCols sdb dbTable ignoreBinary ignoreNull maxRows
            filters cols) w).

Definition GetSQLiteRowCount (sdb : Conn) (dbTable : string) (w : World)
  : Z * error * World :=
  (GetSQLiteRowCount_res sdb dbTable, issue (QGetSQLiteRowCount sdb dbTable) w).

(** The result cache.  Errors of the cache server are only logged by the
    handlers, so they are left out; expiry needs a clock and is left out
    too. *)
Definition GetCachedData (key : string) (w : World) : bool * string :=
  match cache w !! key with
  | Some data => (true, data)
  | None => (false, "")
  end.

Definition CacheData (key data : string) (w : World) : World :=
  cache_put key data w.

Definition RandomString (n : Z) (w : World) : string * World :=
  (RandomString_nth (rng_draws w) n, draw w).

Definition StoreMinioObject (bucket id content contentType : string)
    (w : World) : Z * error * World :=
  let o := mkStoredObject bucket id content contentType in
  match StoreMinioObject_res o with
  | (size, Some e) => (size, Some e, w)
  | (size, None) => (size, None, add_object o w)
  end.

Definition AddDatabase (d : DatabaseRecord) (w : World) : error * World :=
  match AddDatabase_err d with
  | Some e => (Some e, w)
  | None => (None, add_database d w)
  end.

(** *** common/userinput.go *)

(** Returns the requested database owner and database name.  The indices
    are those of the callers, which pass 1 or 2 for [ignore_leading]. *)
Definition GetOD (ignore_leading : Z) (r : Request) : string * string * error :=
  let pathStrings := strings_Split (URL_Path r) "/"%char in
  if Z.of_nat (length pathStrings) <? 3 + ignore_leading
  then ("", "", errors_New "Invalid URL")
  else
    let owner := nth (Z.to_nat (1 + ignore_leading)) pathStrings "" in
    let fileName := nth (Z.to_nat (2 + ignore_leading)) pathStrings "" in
    on_error (ValidateUserFilename owner fileName) as _e
      return ("", "", errors_New "Invalid owner or database name") otherwise
    (owner, fileName, None).

(** Returns the requested table name (if any). *)
Definition GetTable (r : Request) : string * error :=
  let requestedTable := FormValue r "table" in
  if decide (requestedTable <> "") then
    on_error (ValidatePGTable requestedTable) as _e
      return ("", errors_New "Invalid table name") otherwise
    (requestedTable, None)
  else (requestedTable, None).

(** Returns the requested database owner, database name, and table name. *)
Definition GetODT (ignore_leading : Z) (r : Request)
  : string * string * string * error :=
  let '(owner, fileName, err) := GetOD ignore_leading r in
  on_error err as e return ("", "", "", Some e) otherwise
  let '(requestedTable, err) := GetTable r in
  on_error err as e return ("", "", "", Some e) otherwise
  (owner, fileName, requestedTable, None).

(** *** tableViewHandler *)

(** The loop over [tables] that sets [tablePresent]. *)
Definition tablePresent (requestedTable : string) (tables : list string) : bool :=
  fold_left
    (fun present tableName =>
       if decide (requestedTable = tableName) then true else present)
    tables false.

(** This passes table row data back to the main UI in JSON format. *)
Definition tableViewHandler (r : Request) (w : World) : Response * World :=
  let '(dbOwner, dbName, requestedTable, dbVersion, err) := GetODTV 2 r in
  on_error err as e return (ErrorPage StatusBadRequest e, w) otherwise
  let loggedInUser := fst (sessionUser r) in
  let '(bucket, id, err) := MinioBucketID dbOwner dbName dbVersion loggedInUser in
  on_error err as e return (ErrorPage StatusInternalServerError e, w) otherwise
  if decide (id = "") then (NoOutput, w) else
  let maxRows :=
    if decide (loggedInUser <> "") then PrefUserMaxRows loggedInUser else 10 in
  let '(sdb, _, w) := OpenMinioObject bucket id w in
  let '(tables, err, w) := Tables sdb w in
  on_error err as _e return (NoOutput, w) otherwise
  match tables with
  | [] => (NoOutput, w)
  | table0 :: _ =>
    if bool_decide (requestedTable <> "") && negb (tablePresent requestedTable tables)
    then (ErrorPage StatusBadRequest "Requested table does not exist", w)
    else
    let requestedTable :=
      if decide (requestedTable = "") then table0 else requestedTable in
    let '(dataRows, err, w) := ReadSQLiteDB sdb requestedTable maxRows w in
    on_error err as e return (ErrorPage StatusBadRequest e, w) otherwise
    let '(total, err, w) := GetSQLiteRowCount sdb requestedTable w in
    let dataRows := set_TotalRows total dataRows in
    on_error err as e return (ErrorPage StatusInternalServerError e, w) otherwise
    if 0 <? RowCount dataRows then
      let '(jsonResponse, err) := json_MarshalIndent dataRows in
      on_error err as _e return (NoOutput, w) otherwise
      (Body jsonResponse, w)
    else
      (Body "{]", w)
  end.

(** *** downloadHandler *)
Definition downloadHandler (r : Request) (w : World) : Response * World :=
  let '(dbOwner, dbName, dbVersion, err) := GetODV 2 r in
  on_error err as e return (ErrorPage StatusBadRequest e, w) otherwise
  let loggedInUser := fst (sessionUser r) in
  let '(bucket, id, err) := MinioBucketID dbOwner dbName dbVersion loggedInUser in
  on_error err as e return (ErrorPage StatusInternalServerError e, w) otherwise
  let '(userDB, err, w) := MinioHandle bucket id w in
  on_error err as e return (ErrorPage StatusInternalServerError e, w) otherwise
  defer (MinioHandleClose userDB)
    (fun w =>
       let '(content, err) := io_Copy userDB in
       (Download (url_QueryEscape dbName) "application/x-sqlite3" content err, w))
    w.

(** *** visData *)

(** The operators the [switch] on the WHERE type lets through. *)
Definition whereTypes : list string := ["LIKE"; "="; "!="; "<"; "<="; ">"; ">="].

(** The predictable cache key for the JSON data. *)
Definition pageCacheKey
    (loggedInUser userName dbName requestedTable xCol yCol wCol wType wVal : string)
  : string :=
  if decide (loggedInUser <> userName) then
    "visdat-pub-" +:+
      md5_hex (userName +:+ "/" +:+ dbName +:+ "/" +:+ requestedTable +:+ xCol
               +:+ yCol +:+ wCol +:+ wType +:+ wVal)
  else
    "visdat-" +:+
      md5_hex (loggedInUser +:+ "-" +:+ userName +:+ "/" +:+ dbName +:+ "/"
               +:+ requestedTable +:+ xCol +:+ yCol +:+ wCol +:+ wType +:+ wVal).

(** Receives a request for specific table data from the front end,
    returning it as JSON. *)
Definition visData (r : Request) (w : World) : Response * World :=
  let '(userName, dbName, requestedTable, err) := GetODT 2 r in
  on_error err as e return (ErrorPage StatusBadRequest e, w) otherwise
  (* X and Y column names *)
  let reqXCol := FormValue r "xcol" in
  let reqYCol := FormValue r "ycol" in
  on_error (if decide (reqXCol <> "") then ValidatePGTable reqXCol else None)
    as _e return (NoOutput, w) otherwise
  let xCol := if decide (reqXCol <> "") then reqXCol else "" in
  on_error (if decide (reqYCol <> "") then ValidatePGTable reqYCol else None)
    as _e return (NoOutput, w) otherwise
  let yCol := if decide (reqYCol <> "") then reqYCol else "" in
  (* WHERE clause values *)
  let reqWCol := FormValue r "wherecol" in
  let reqWType := FormValue r "wheretype" in
  let reqWVal := FormValue r "whereval" in
  on_error (if decide (reqWCol <> "") then ValidatePGTable reqWCol else None)
    as _e return (NoOutput, w) otherwise
  let wCol := if decide (reqWCol <> "") then reqWCol else "" in
  match (if decide (reqWType = "") then Some ""
         else if bool_decide (reqWType ∈ whereTypes) then Some reqWType
         else None) with
  | None => (NoOutput, w)
  | Some wType =>
  let whereClauses :=
    if bool_decide (reqWVal <> "") && bool_decide (wType <> "")
    then [mkWhereClause wCol wType reqWVal] else [] in
  let wVal :=
    if bool_decide (reqWVal <> "") && bool_decide (wType <> "")
    then reqWVal else "" in
  let loggedInUser := fst (sessionUser r) in
  (* access check; fills in pageData.DB *)
  let '(pageData_DB, err) := CheckUserDBAccess loggedInUser userName dbName in
  on_error err as e return (ErrorPage StatusBadRequest e, w) otherwise
  let pageCacheKey :=
    pageCacheKey loggedInUser userName dbName requestedTable xCol yCol wCol
                 wType wVal in
  let '(ok, jsonResponse) := GetCachedData pageCacheKey w in
  if ok then (Body jsonResponse, w) else
  let '(sdb, err, w) :=
    OpenMinioObject (MinioBkt pageData_DB) (MinioId pageData_DB) w in
  on_error err as _e return (NoOutput, w) otherwise
  let '(tables, err, w) := Tables sdb w in
  on_error err as _e return (NoOutput, w) otherwise
  match tables with
  | [] => (NoOutput, w)
  | table0 :: _ =>
    let pageData_DB := set_Info_Tables tables pageData_DB in
    let dbTable :=
      if decide (requestedTable <> "") then
        fold_left
          (fun dbTable tbl =>
             if decide (tbl = requestedTable) then requestedTable else dbTable)
          tables ""
      else "" in
    let dbTable :=
      if decide (dbTable = "") then nth 0 (Info_Tables pageData_DB) ""
      else dbTable in
    let maxVals := 2500 in
    let '(pageData_Data, err, w) :=
      if bool_decide (xCol <> "") && bool_decide (yCol <> "")
      then ReadSQLiteDBCols sdb requestedTable true true maxVals whereClauses
             [xCol; yCol] w
      else ReadSQLiteDB sdb requestedTable maxVals w in
    on_error err as e return (ErrorPage StatusBadRequest e, w) otherwise
    let '(jsonResponse, err) := json_Marshal pageData_Data in
    on_error err as _e return (NoOutput, w) otherwise
    let w := CacheData pageCacheKey jsonResponse w in
    (Body jsonResponse, w)
  end
  end.

(** *** uploadDataHandler *)

(** The version number for the new database. *)
Definition newVer (highVer : Z) : Z :=
  if 0 <? highVer then GoInt.add highVer 1 else 1.

(** The loop that generates the name to store the database as.  The
    source loop has no exit but an available name or a failing check;
    [fuel] bounds the iterations that are run, and [None] says that the
    loop is still going after that many. *)
Fixpoint genMinioID (fuel : nat) (loggedInUser : string) (w : World)
  : option (string * error * World) :=
  match fuel with
  | O => None
  | S fuel' =>
      let '(rnd, w) := RandomString 8 w in
      let minioID := rnd +:+ ".db" in
      let '(okID, err) := CheckMinioIDAvail loggedInUser minioID in
      on_error err as e return Some (minioID, Some e, w) otherwise
      if okID then Some (minioID, None, w)
      else genMinioID fuel' loggedInUser w
  end.

(** This function processes new database data submitted through the
    upload form.  Creating, writing and removing the local scratch file
    are calls of the operating system; their failures are the
    collaborators' answers. *)
Definition uploadDataHandler (fuel : nat) (r : Request) (w : World)
  : option (Response * World) :=
  let '(loggedInUser, validSession) := sessionUser r in
  if negb validSession
  then Some (ErrorPage StatusUnauthorized "You need to be logged in", w) else
  on_error (ParseFormErr r) as e
    return Some (ErrorPage StatusInternalServerError e, w) otherwise
  let userPublic := PostFormValue r "public" in
  let '(public, err) := strconv_ParseBool userPublic in
  on_error err as _e
    return Some (ErrorPage StatusBadRequest "Public value incorrect", w) otherwise
  let folder := "/" in
  match FormFile r with
  | None =>
      Some (ErrorPage StatusInternalServerError
              "Database file missing from upload data?", w)
  | Some handler =>
  let dbName := Filename handler in
  on_error (ValidateDB dbName) as _e
    return Some (ErrorPage StatusBadRequest "Invalid database name", w) otherwise
  let tempBuf := Content handler in
  let bytesWritten := Z.of_nat (String.length tempBuf) in
  on_error (ReadErr handler) as _e
    return Some (ErrorPage StatusInternalServerError "Internal error", w) otherwise
  if bytesWritten =? 0
  then Some (ErrorPage StatusBadRequest "Database file is 0 length?", w) else
  on_error TempFile_err as _e
    return Some (ErrorPage StatusInternalServerError "Internal error", w) otherwise
  on_error (TempFile_Write_err tempBuf) as _e
    return Some (ErrorPage StatusInternalServerError "Internal error", w) otherwise
  (* sanity check: is it really an SQLite database *)
  let '(sqliteDB, err, w) := sqlite_Open tempBuf w in
  on_error err as _e
    return Some (ErrorPage StatusInternalServerError "Internal error", w) otherwise
  defer_opt (sqlite_Close sqliteDB)
    (fun w =>
       let '(tables, err, w) := Tables sqliteDB w in
       on_error err as _e
         return Some (ErrorPage StatusInternalServerError
                        "Error when sanity checking file.  Possibly encrypted or not a database?",
                      w) otherwise
       if (length tables =? 0)%nat
       then Some (ErrorPage StatusInternalServerError "Database has no tables?", w)
       else
       let shaSum := sha256_Sum256 tempBuf in
       (* the version number for this new database *)
       let '(highVer, _) := HighestDBVersion loggedInUser dbName "/" in
       let newVer := newVer highVer in
       let '(bucket, err) := MinioUserBucket loggedInUser in
       on_error err as _e
         return Some (ErrorPage StatusInternalServerError "Database query failure", w)
       otherwise
       match genMinioID fuel loggedInUser w with
       | None => None
       | Some (minioID, err, w) =>
         on_error err as _e
           return Some (ErrorPage StatusInternalServerError "Database query failure", w)
         otherwise
         match Header_ContentType handler with
         | [] => Some (Panic "index out of range", w)
         | contentType :: _ =>
           let '(dbSize, err, w) :=
             StoreMinioObject bucket minioID tempBuf contentType w in
           on_error err as _e
             return Some (ErrorPage StatusInternalServerError
                            "Storing database file failed", w) otherwise
           let '(err, w) :=
             AddDatabase
               (mkDatabaseRecord loggedInUser folder dbName newVer shaSum dbSize
                  public bucket minioID) w in
           on_error err as _e
             return Some (ErrorPage StatusInternalServerError
                            "Adding database details to PostgreSQL failed", w)
           otherwise
           Some (UploadSucceeded loggedInUser, w)
         end
       end)
    w
  end.
(** *** Vocabulary for the properties *)

(** The object name generated at the [i]-th draw of the random source. *)
Definition attempt (i : nat) : string := RandomString_nth i 8 +:+ ".db".

(** The connection [OpenMinioObject] hands out for a locator: nil when the
    call fails. *)
Definition opened (bucket id : string) : Conn :=
  match OpenMinioObject_err bucket id with
  | Some _ => None
  | None => Some (MinioSQLite bucket id)
  end.

(** [tableViewHandler] gets as far as the table list: the URL parses, the
    requester may read the database at (bucket, id), and the engine lists
    [tables]. *)
Definition table_view_lists (r : Request) (requestedTable bucket id : string)
    (tables : list string) : Prop :=
  exists dbOwner dbName dbVersion,
    GetODTV 2 r = (dbOwner, dbName, requestedTable, dbVersion, None)
    /\ MinioBucketID dbOwner dbName dbVersion (fst (sessionUser r))
       = (bucket, id, None)
    /\ id <> ""
    /\ Tables_res (opened bucket id) = (tables, None).

(** The row limit [tableViewHandler] works with. *)
Definition table_view_maxRows (r : Request) : Z :=
  if decide (fst (sessionUser r) <> "") then PrefUserMaxRows (fst (sessionUser r))
  else 10.

(** The column names and the WHERE type of a visualisation request pass
    the checks of [visData]. *)
Definition vis_params_pass (r : Request) : Prop :=
  (FormValue r "xcol" = "" \/ ValidatePGTable (FormValue r "xcol") = None)
  /\ (FormValue r "ycol" = "" \/ ValidatePGTable (FormValue r "ycol") = None)
  /\ (FormValue r "wherecol" = ""
      \/ ValidatePGTable (FormValue r "wherecol") = None)
  /\ (FormValue r "wheretype" = "" \/ FormValue r "wheretype" ∈ whereTypes).

(** The WHERE clauses of a request whose parameters pass. *)
Definition vis_whereClauses (r : Request) : list WhereClause :=
  if bool_decide (FormValue r "whereval" <> "")
     && bool_decide (FormValue r "wheretype" <> "")
  then [mkWhereClause (FormValue r "wherecol") (FormValue r "wheretype")
          (FormValue r "whereval")]
  else [].

(** The cache key of a request whose parameters pass. *)
Definition vis_cache_key (r : Request) (userName dbName requestedTable : string)
  : string :=
  pageCacheKey (fst (sessionUser r)) userName dbName requestedTable
    (FormValue r "xcol") (FormValue r "ycol") (FormValue r "wherecol")
    (FormValue r "wheretype")
    (if bool_decide (FormValue r "whereval" <> "")
        && bool_decide (FormValue r "wheretype" <> "")
     then FormValue r "whereval" else "").

(** [visData] gets as far as the query: the URL and the parameters pass,
    the requester may read the database, the answer is not in the cache,
    the object opens as [sdb] and the engine lists at least one table. *)
Definition vis_queries (r : Request) (w : World)
    (userName dbName requestedTable : string) (sdb : Conn)
    (tables : list string) : Prop :=
  exists info,
    GetODT 2 r = (userName, dbName, requestedTable, None)
    /\ vis_params_pass r
    /\ CheckUserDBAccess (fst (sessionUser r)) userName dbName = (info, None)
    /\ cache w !! vis_cache_key r userName dbName requestedTable = None
    /\ OpenMinioObject_err (MinioBkt info) (MinioId info) = None
    /\ sdb = Some (MinioSQLite (MinioBkt info) (MinioId info))
    /\ Tables_res sdb = (tables, None)
    /\ tables <> [].

(** The query [visData] sends for a request: the column pair with the
    WHERE clauses when both columns are named, the whole table otherwise. *)
Definition vis_query (r : Request) (sdb : Conn) (requestedTable : string) : Query :=
  if bool_decide (FormValue r "xcol" <> "") && bool_decide (FormValue r "ycol" <> "")
  then QReadSQLiteDBCols sdb requestedTable true true 2500 (vis_whereClauses r)
         [FormValue r "xcol"; FormValue r "ycol"]
  else QReadSQLiteDB sdb requestedTable 2500.

(** What the engine answers to a read. *)
Definition answer (q : Query) : SQLiteRecordSet * error :=
  match q with
  | QReadSQLiteDB sdb t n => ReadSQLiteDB_res sdb t n
  | QReadSQLiteDBCols sdb t b1 b2 n fs cs => ReadSQLiteDBCols_res sdb t b1 b2 n fs cs
  | _ => (mkRecordSet [] 0 0, None)
  end.

End Handlers.


(** The table a read or count statement names. *)
Definition query_table (q : Query) : option string :=
  match q with
  | QTables _ => None
  | QReadSQLiteDB _ t _ => Some t
  | QReadSQLiteDBCols _ t _ _ _ _ _ => Some t
  | QGetSQLiteRowCount _ t => Some t
  end.

Definition is_count (q : Query) : bool :=
  match q with QGetSQLiteRowCount _ _ => true | _ => false end.


(** A necessary condition of well-formed JSON text whose strings hold no
    brackets: braces and square brackets are nested properly. *)
Fixpoint brackets_nest (stack : list ascii) (s : string) : bool :=
  match s with
  | EmptyString => match stack with [] => true | _ => false end
  | String c rest =>
      if (Ascii.eqb c "{" || Ascii.eqb c "[")%char then brackets_nest (c :: stack) rest
      else if Ascii.eqb c "}" then
        match stack with
        | o :: stack' => Ascii.eqb o "{" && brackets_nest stack' rest
        | [] => false
        end
      else if Ascii.eqb c "]" then
        match stack with
        | o :: stack' => Ascii.eqb o "[" && brackets_nest stack' rest
        | [] => false
        end
      else brackets_nest stack rest
  end.

(** ** A concrete installation

    One owner, "alice", with a public database "d.db" (three versions
    stored) and a private one, "secret.db"; a second user "bob" who has set
    his row preference to 25.  The collaborators are small executable
    stand-ins for the metadata store, the object store and the embedded SQL
    engine. *)
Module Demo.

Definition itoa (n : Z) : string := NilZero.string_of_int (Z.to_int n).

(** Modelled from the spec: a database file is a list of named tables,
    each an ordered list of rows. *)
Record Table := mkTable { t_name : string; t_rows : list DataRow }.

Definition row (n : nat) : DataRow :=
  [("a", itoa (Z.of_nat n)); ("b", itoa (Z.of_nat (n * n)))].

Definition d_db : list Table :=
  [ mkTable "t" (map row (seq 1 12));
    mkTable "u" (map row (seq 1 3));
    mkTable "empty" [] ].

Definition secret_db : list Table := [ mkTable "s" (map row (seq 1 2)) ].

(** A database file without any table. *)
Definition blank_db : list Table := [].

(** What the upload tests send as file content. *)
Definition d_db_bytes : string := "SQLite format 3 (d.db)".

Definition database_of (sdb : Conn) : option (list Table) :=
  match sdb with
  | Some (MinioSQLite "alice-bucket" "obj1.db") => Some d_db
  | Some (MinioSQLite "alice-bucket" "obj2.db") => Some secret_db
  | Some (MinioSQLite "alice-bucket" "obj3.db") => Some blank_db
  | Some (LocalSQLite content) =>
      if decide (content = d_db_bytes) then Some d_db else Some []
  | _ => None
  end.

Definition find_table (name : string) (db : list Table) : option Table :=
  find (fun t => bool_decide (t_name t = name)) db.

Definition empty_set : SQLiteRecordSet := mkRecordSet [] 0 0.

Definition column (c : string) (r : DataRow) : option string :=
  snd <$> find (fun kv => bool_decide (fst kv = c)) r.

(** Values are compared as text; LIKE is taken without wildcards. *)
Definition holds (f : WhereClause) (r : DataRow) : bool :=
  match column (wc_Column f) r with
  | None => false
  | Some v =>
      let c := String.compare v (wc_Value f) in
      if decide (wc_Type f = "=") then bool_decide (c = Eq)
      else if decide (wc_Type f = "LIKE") then bool_decide (c = Eq)
      else if decide (wc_Type f = "!=") then negb (bool_decide (c = Eq))
      else if decide (wc_Type f = "<") then bool_decide (c = Lt)
      else if decide (wc_Type f = "<=") then negb (bool_decide (c = Gt))
      else if decide (wc_Type f = ">") then bool_decide (c = Gt)
      else if decide (wc_Type f = ">=") then negb (bool_decide (c = Lt))
      else false
  end.

Definition project (cols : list string) (r : DataRow) : DataRow :=
  filter (fun kv => fst kv ∈ cols) r.

(** Modelled from the spec: the reader returns the table's rows in their
    natural order, at most [maxRows] of them, and fails on a table the
    database does not have. *)
Definition read (sdb : Conn) (dbTable : string) (maxRows : Z)
    (filters : list WhereClause) (cols : option (list string))
  : SQLiteRecordSet * error :=
  match database_of sdb with
  | None => (empty_set, Some "Error when reading data from the SQLite database")
  | Some db =>
      match find_table dbTable db with
      | None => (empty_set, Some ("no such table: " +:+ dbTable))
      | Some t =>
          let rows :=
            List.filter (fun r => forallb (fun f => holds f r) filters)
                        (t_rows t) in
          let rows := firstn (Z.to_nat maxRows) rows in
          let rows :=
            match cols with Some cs => map (project cs) rows | None => rows end in
          (mkRecordSet rows (Z.of_nat (length rows)) 0, None)
      end
  end.

Definition count (sdb : Conn) (dbTable : string) : Z * error :=
  match database_of sdb with
  | None => (0, Some "Database query failure")
  | Some db =>
      match find_table dbTable db with
      | None => (0, Some ("no such table: " +:+ dbTable))
      | Some t => (Z.of_nat (length (t_rows t)), None)
      end
  end.

Definition tables_of (sdb : Conn) : list string * error :=
  match database_of sdb with
  | None => ([], Some "Error retrieving table names")
  | Some db => (map t_name db, None)
  end.

(** JSON text of a record set; the example values need no escaping. *)
Definition q : string := String (ascii_of_nat 34) EmptyString.
Definition quoted (s : string) : string := q +:+ s +:+ q.

Fixpoint join (sep : string) (l : list string) : string :=
  match l with
  | [] => EmptyString
  | [x] => x
  | x :: rest => x +:+ sep +:+ join sep rest
  end.

Definition json_row (r : DataRow) : string :=
  "{" +:+ join "," (map (fun kv => quoted (fst kv) +:+ ":" +:+ quoted (snd kv)) r)
      +:+ "}".

Definition marshal (d : SQLiteRecordSet) : string * error :=
  ("{" +:+ quoted "Records" +:+ ":[" +:+ join "," (map json_row (Records d))
       +:+ "]," +:+ quoted "RowCount" +:+ ":" +:+ itoa (RowCount d)
       +:+ "," +:+ quoted "TotalRows" +:+ ":" +:+ itoa (TotalRows d) +:+ "}",
   None).

Definition is_word_char (c : ascii) : bool :=
  let n := nat_of_ascii c in
  ((48 <=? n) && (n <=? 57) || (65 <=? n) && (n <=? 90)
   || (97 <=? n) && (n <=? 122) || (n =? 95))%nat.

(** Modelled from the spec: table and column names are checked against a
    conservative whitelist, here letters, digits and underscore. *)
Definition validate_name (s : string) : error :=
  if decide (s = "") then Some "required"
  else if forallb is_word_char (list_ascii_of_string s) then None
  else Some "disallowed character".

Definition required (s : string) : error :=
  if decide (s = "") then Some "required" else None.

(** Locator of (owner, database) for a requester: private databases are
    the owner's only. *)
Definition locate (owner dbName requester : string) : string * string * error :=
  if decide (owner = "alice" /\ dbName = "d.db")
  then ("alice-bucket", "obj1.db", None)
  else if decide (owner = "alice" /\ dbName = "secret.db") then
    if decide (requester = owner) then ("alice-bucket", "obj2.db", None)
    else ("", "", Some "The requested database doesn't exist")
  else if decide (owner = "alice" /\ dbName = "blank.db")
  then ("alice-bucket", "obj3.db", None)
  else ("", "", Some "The requested database doesn't exist").

Definition path_part (r : Request) (i : nat) : string :=
  nth i (strings_Split (URL_Path r) "/"%char) "".

(** The installation, given the answer of the availability check for
    object names. *)
Definition installation (avail : string -> string -> bool * error) : Com := {|
  ValidateUserFilename :=
    fun owner fileName =>
      match required owner with Some e => Some e | None => required fileName end;
  ValidatePGTable := validate_name;
  ValidateDB := required;
  GetODTV := fun _ r =>
    (path_part r 3, path_part r 4, FormValue r "table", 0, None);
  GetODV := fun _ r => (path_part r 3, path_part r 4, 0, None);
  MinioBucketID := fun owner dbName _ requester => locate owner dbName requester;
  CheckUserDBAccess := fun requester owner dbName =>
    let '(b, i, err) := locate owner dbName requester in (mkDBinfo b i [], err);
  PrefUserMaxRows := fun u => if decide (u = "bob") then 25 else 10;
  HighestDBVersion := fun owner dbName _ =>
    if decide (owner = "alice" /\ dbName = "d.db") then (3, None)
    else if decide (owner = "alice" /\ dbName = "secret.db") then (1, None)
    else (0, None);
  MinioUserBucket := fun u => (u +:+ "-bucket", None);
  CheckMinioIDAvail := avail;
  AddDatabase_err := fun _ => None;
  OpenMinioObject_err := fun _ _ => None;
  MinioHandle_err := fun _ _ => None;
  StoreMinioObject_res := fun o => (Z.of_nat (String.length (so_content o)), None);
  io_Copy := fun c =>
    match c with
    | Some (MinioObject "alice-bucket" "obj1.db") => (d_db_bytes, None)
    | _ => ("", Some "read failed")
    end;
  sqlite_Open_err := fun _ => None;
  Tables_res := tables_of;
  ReadSQLiteDB_res := fun sdb t n => read sdb t n [] None;
  ReadSQLiteDBCols_res := fun sdb t _ _ n filters cols => read sdb t n filters (Some cols);
  GetSQLiteRowCount_res := count;
  TempFile_err := None;
  TempFile_Write_err := fun _ => None;
  RandomString_nth := fun i _ => "rnd" +:+ itoa (Z.of_nat i);
  sha256_Sum256 := fun content => "sha256 of " +:+ content;
  url_QueryEscape := fun s => s;
  json_Marshal := marshal;
  json_MarshalIndent := marshal |}.

(** Every generated object name is free. *)
Definition roomy : Com := installation (fun _ _ => (true, None)).

(** Every generated object name is taken. *)
Definition crowded : Com := installation (fun _ _ => (false, None)).

(** The first two generated object names are taken, the third is free. *)
Definition busy : Com :=
  installation (fun _ id => (bool_decide (id = "rnd2.db"), None)).

Definition w0 : World := mkWorld [] [] ∅ [] [] 0.

Definition request (path : string) (form : list (string * string))
    (user : option string) : Request :=
  mkRequest path (list_to_map form) ∅ None (Some <$> user) None.

(** A table view request for one of alice's databases. *)
Definition view (dbName table : string) (user : option string) : Request :=
  request ("/x/table/alice/" +:+ dbName) [("table", table)] user.

(** A visualisation request for alice's public database. *)
Definition vis (form : list (string * string)) (user : option string) : Request :=
  request "/x/visdata/alice/d.db" form user.

Definition d_file : FilePart :=
  mkFilePart "d.db" d_db_bytes ["application/x-sqlite3"] None.

Definition upload (user : string) (file : FilePart) : Request :=
  mkRequest "/x/uploaddata/" ∅ (list_to_map [("public", "true")]) None
    (Some (Some user)) (Some file).

(** The connection on alice's public database, and its tables. *)
Definition sdb1 : Conn := Some (MinioSQLite "alice-bucket" "obj1.db").
Definition d_tables : list string := ["t"; "u"; "empty"].

End Demo.

(** * The rest of the front end

    The handlers and URL helpers the earlier sections do not need:
    the remaining functions of [common/userinput.go], [mainHandler],
    [downloadCSVHandler], [createUserHandler], [auth0CallbackHandler],
    [prefHandler], [starToggleHandler], [starsHandler],
    [uploadFormHandler] and [logoutHandler]. *)

(** ** net/url and strconv *)

Module URL.
Definition ishex (c : ascii) : bool :=
  let n := nat_of_ascii c in
  ((48 <=? n) && (n <=? 57) || (97 <=? n) && (n <=? 102)
   || (65 <=? n) && (n <=? 70))%nat.

Definition unhex (c : ascii) : nat :=
  let n := nat_of_ascii c in
  (if (48 <=? n) && (n <=? 57) then n - 48
   else if (97 <=? n) && (n <=? 102) then n - 97 + 10
   else if (65 <=? n) && (n <=? 70) then n - 65 + 10
   else 0)%nat.

(** The text of an [EscapeError]; the offending piece is shown as it is. *)
Definition EscapeError (piece : string) : string :=
  "invalid URL escape " +:+ piece.

(** [url.QueryUnescape]: %XX becomes the byte it names, '+' a space; a
    '%' that is not followed by two hexadecimal digits is an error, with
    the empty string as the result. *)
Fixpoint QueryUnescape (s : string) : string * error :=
  match s with
  | EmptyString => (EmptyString, None)
  | String c rest =>
      if Ascii.eqb c "%" then
        match rest with
        | String a (String b rest') =>
            if ishex a && ishex b then
              match QueryUnescape rest' with
              | (t, None) =>
                  (String (ascii_of_nat (unhex a * 16 + unhex b)) t, None)
              | (_, Some e) => (EmptyString, Some e)
              end
            else (EmptyString,
                  Some (EscapeError (String c (String a (String b EmptyString)))))
        | _ => (EmptyString, Some (EscapeError s))
        end
      else
        match QueryUnescape rest with
        | (t, None) => (String (if Ascii.eqb c "+" then " "%char else c) t, None)
        | (_, Some e) => (EmptyString, Some e)
        end
  end.
End URL.

(** [strconv.Itoa]. *)
Definition strconv_Itoa (n : Z) : string := NilZero.string_of_int (Z.to_int n).

Definition digit_value (c : ascii) : option Z :=
  let n := Z.of_nat (nat_of_ascii c) in
  if (48 <=? n) && (n <=? 57) then Some (n - 48) else None.

Fixpoint parse_digits (s : string) (acc : Z) : option Z :=
  match s with
  | EmptyString => Some acc
  | String c rest =>
      match digit_value c with
      | Some d => parse_digits rest (10 * acc + d)
      | None => None
      end
  end.

(** [strconv.Atoi]: an optional sign and decimal digits; out of range
    values are errors too. *)
Definition strconv_Atoi (s : string) : Z * error :=
  let '(neg, body) :=
    match s with
    | String c rest =>
        if Ascii.eqb c "-" then (true, rest)
        else if Ascii.eqb c "+" then (false, rest)
        else (false, s)
    | EmptyString => (false, s)
    end in
  match body with
  | EmptyString => (0, Some "strconv.Atoi: invalid syntax")
  | _ =>
      match parse_digits body 0 with
      | None => (0, Some "strconv.Atoi: invalid syntax")
      | Some v =>
          let n := if neg then - v else v in
          if n <? GoInt.min_int
          then (GoInt.min_int, Some "strconv.Atoi: value out of range")
          else if GoInt.max_int <? n
          then (GoInt.max_int, Some "strconv.Atoi: value out of range")
          else (n, None)
      end
  end.

(** ** Sessions and what a handler does *)

(** A value kept in a session or in a decoded JSON object: Go's
    [interface{}], as far as the handlers look at it. *)
Inductive Attr :=
| AttrBool (b : bool)
| AttrString (s : string)
| AttrOther.

(** The pages of the site; rendering them is the templates' business. *)
Inductive Page :=
| frontPage
| userPage (userName : string)
| databasePage (userName dbName dbTable : string)
| selectUsernamePage
| prefPage (userName : string)
| starsPage (dbOwner dbName : string)
| uploadPage (userName : string).

(** The calls by which a handler acts on the response, the session store
    and the account data, in the order it makes them.  A call that stores
    something ([DoAddUser], [DoSetPrefUserMaxRows], [DoToggleDBStar]) is
    listed when it reported no error. *)
Inductive Effect :=
| DoErrorPage (status : Z) (msg : string)
| DoRender (p : Page)
| DoRedirect (url : string) (status : Z)
| DoPrint (text : string)
| DoSessionAdd (attrs : gmap string Attr)
| DoSessionRemove
| DoAddUser (auth0ID userName password email : string)
| DoSetPrefUserMaxRows (userName : string) (maxRows : Z)
| DoToggleDBStar (userName dbOwner dbName : string)
| DoPanic (what : string).

Definition StatusConflict : Z := 409.
Definition StatusTemporaryRedirect : Z := 307.

(** The calls that answer the request. *)
Definition is_answer (e : Effect) : bool :=
  match e with
  | DoErrorPage _ _ | DoRender _ | DoRedirect _ _ | DoPrint _ => true
  | _ => false
  end.

(** The calls that change what the site stores. *)
Definition is_update (e : Effect) : bool :=
  match e with
  | DoAddUser _ _ _ _ | DoSetPrefUserMaxRows _ _ | DoToggleDBStar _ _ _ => true
  | _ => false
  end.

(** The collaborators of these handlers: validation rules, account data,
    the CSV reader and writer, and the identity provider. *)
Class Site := {
  ValidateFileName : string -> error;
  ValidateFolder : string -> error;
  ValidateBranchName : string -> error;
  ValidateCommitID : string -> error;
  ValidateLicence : string -> error;
  ValidateUser : string -> error;
  ValidateUserDB : string -> string -> error;
  Validate_Var : string -> string -> error;
  ReservedUsernamesCheck : string -> error;
  CheckUserExists : string -> bool * error;
  CheckEmailExists : string -> bool * error;
  UserNameFromAuth0ID : string -> string * error;
  AddUser_err : string -> string -> string -> string -> error;
  SetPrefUserMaxRows_err : string -> Z -> error;
  ToggleDBStar_err : string -> string -> string -> error;
  DBStars : string -> string -> Z * error;
  ReadSQLiteDBCSV_res : Conn -> string -> list (list string) * error;
  csv_WriteAll : list (list string) -> string * error;
  RandomString32 : string;
  oauth2_Exchange : Request -> error;
  userinfo_Get : Request -> error;
  ioutil_ReadAll : Request -> string * error;
  json_Unmarshal : string -> gmap string Attr * error }.

Section FrontEnd.
Context {com : Com} {site : Site}.

(** *** common/userinput.go, continued *)

(** Extracts a database name from GET or POST/PUT data. *)
Definition GetDatabase (r : Request) (allowGet : bool) : string * error :=
  let d := if allowGet then FormValue r "dbname" else PostFormValue r "dbname" in
  let '(fileName, err) := URL.QueryUnescape d in
  on_error err as e return ("", Some e) otherwise
  on_error (ValidateFileName fileName) as _e
    return ("", errors_New "Invalid database name") otherwise
  (fileName, None).

(** Returns the folder name (if any) present in GET or POST/PUT data. *)
Definition GetFolder (r : Request) (allowGet : bool) : string * error :=
  let f := if allowGet then FormValue r "folder" else PostFormValue r "folder" in
  if decide (f = "") then ("", None) else
  let '(folder, err) := URL.QueryUnescape f in
  on_error err as e return ("", Some e) otherwise
  on_error (ValidateFolder folder) as e return ("", Some e) otherwise
  (folder, None).

(** Return the requested branch name, from get or post data. *)
Definition GetFormBranch (r : Request) : string * error :=
  let a := FormValue r "branch" in
  if decide (a = "") then ("", None) else
  let '(b, err) := URL.QueryUnescape a in
  on_error err as e return ("", Some e) otherwise
  on_error (ValidateBranchName b) as _e
    return ("", errors_New ("Invalid branch name: '" +:+ b +:+ "'")) otherwise
  (b, None).

(** Return the requested database commit, from form data. *)
Definition GetFormCommit (r : Request) : string * error :=
  let c := FormValue r "commit" in
  if decide (c = "") then ("", None) else
  on_error (ValidateCommitID c) as _e
    return ("", errors_New ("Invalid database commit: '" +:+ c +:+ "'")) otherwise
  (c, None).

(** Returns the licence name (if any) present in the form data. *)
Definition GetFormLicence (r : Request) : string * error :=
  let l := PostFormValue r "licence" in
  if decide (l = "") then ("", None) else
  on_error (ValidateLicence l) as e return ("", Some e) otherwise
  (l, None).

(** Returns the source URL (if any) present in the form data. *)
Definition GetFormSourceURL (r : Request) : string * error :=
  let su := PostFormValue r "sourceurl" in
  if decide (su <> "") then
    on_error (Validate_Var su "url,min=5,max=255") as _e
      return ("", errors_New "Validation failed for source URL field") otherwise
    (su, None)
  else ("", None).

(** Return the requested release name, from get or post data. *)
Definition GetFormRelease (r : Request) : string * error :=
  let a := FormValue r "release" in
  if decide (a = "") then ("", None) else
  let '(c, err) := URL.QueryUnescape a in
  on_error err as e return ("", Some e) otherwise
  on_error (ValidateBranchName c) as _e
    return ("", errors_New ("Invalid release name: '" +:+ c +:+ "'")) otherwise
  (c, None).

(** Return the requested tag name, from get or post data. *)
Definition GetFormTag (r : Request) : string * error :=
  let a := FormValue r "tag" in
  if decide (a = "") then ("", None) else
  let '(c, err) := URL.QueryUnescape a in
  on_error err as e return ("", Some e) otherwise
  on_error (ValidateBranchName c) as _e
    return ("", errors_New ("Invalid tag name: '" +:+ c +:+ "'")) otherwise
  (c, None).

(** Return the username (if any) present in the GET or POST/PUT data. *)
Definition GetUsername (r : Request) (allowGet : bool) : string * error :=
  let u := if allowGet then FormValue r "username" else PostFormValue r "username" in
  if decide (u = "") then ("", None) else
  let '(userName, err) := URL.QueryUnescape u in
  on_error err as e return ("", Some e) otherwise
  on_error (ValidateUser userName) as e return ("", Some e) otherwise
  (userName, None).

(** Return the username, database, and commit (if any) present in the
    form data. *)
Definition GetFormUDC (r : Request) : string * string * string * error :=
  let '(userName, err) := GetUsername r false in
  on_error err as e return ("", "", "", Some e) otherwise
  let '(fileName, err) := GetDatabase r false in
  on_error err as e return ("", "", "", Some e) otherwise
  let '(commitID, err) := GetFormCommit r in
  on_error err as e return ("", "", "", Some e) otherwise
  (userName, fileName, commitID, None).

(** Returns the requested database owner, database name, and commit
    revision. *)
Definition GetODC (ignore_leading : Z) (r : Request)
  : string * string * string * error :=
  let '(owner, fileName, err) := GetOD ignore_leading r in
  on_error err as e return ("", "", "", Some e) otherwise
  let '(commitID, err) := GetFormCommit r in
  on_error err as e return ("", "", "", Some e) otherwise
  (owner, fileName, commitID, None).

(** Returns the requested database owner, database name, table name, and
    commit string. *)
Definition GetODTC (ignore_leading : Z) (r : Request)
  : string * string * string * string * error :=
  let '(owner, fileName, err) := GetOD ignore_leading r in
  on_error err as e return ("", "", "", "", Some e) otherwise
  let '(requestedTable, err) := GetTable r in
  on_error err as e return ("", "", "", "", Some e) otherwise
  let '(commitID, err) := GetFormCommit r in
  on_error err as e return ("", "", "", "", Some e) otherwise
  (owner, fileName, requestedTable, commitID, None).

(** Returns the requested "public" variable, if present in the form data.
    If something goes wrong, it defaults to "false". *)
Definition GetPub (r : Request) : bool * error :=
  let val := PostFormValue r "public" in
  if decide (val = "") then (false, errors_New "No public/private value present")
  else
    let '(pub, err) := strconv_ParseBool val in
    on_error err as e return (false, Some e) otherwise
    (pub, None).

(** Return the username, folder, and database name (if any) present in
    the form data. *)
Definition GetUFD (r : Request) (allowGet : bool)
  : string * string * string * error :=
  let '(userName, err) := GetUsername r allowGet in
  on_error err as e return ("", "", "", Some e) otherwise
  let '(folder, err) := GetFolder r allowGet in
  on_error err as e return ("", "", "", Some e) otherwise
  let '(fileName, err) := GetDatabase r allowGet in
  on_error err as e return ("", "", "", Some e) otherwise
  (userName, folder, fileName, None).

(** *** mainHandler *)
Definition mainHandler (r : Request) : list Effect :=
  let pathStrings := strings_Split (URL_Path r) "/"%char in
  let numPieces := length pathStrings in
  if decide (numPieces = 2%nat) then
    match pathStrings !! 1%nat with
    | None => [DoPanic "index out of range"]
    | Some userName =>
        if decide (userName = "") then [DoRender frontPage]
        else [DoRender (userPage userName)]
    end
  else
    match pathStrings !! 1%nat, pathStrings !! 2%nat with
    | Some userName, Some dbName =>
        on_error (ValidateUserDB userName dbName) as _e
          return [DoErrorPage StatusBadRequest "Invalid user or database name"]
        otherwise
        if decide (dbName = "") then [DoRender (userPage userName)]
        else
          let dbTable := FormValue r "table" in
          let dbTable :=
            if decide (dbTable <> "") then
              match ValidatePGTable dbTable with
              | Some _ => ""
              | None => dbTable
              end
            else dbTable in
          [DoRender (databasePage userName dbName dbTable)]
    | _, _ => [DoPanic "index out of range"]
    end.

(** *** downloadCSVHandler *)
Definition downloadCSVHandler (r : Request) (w : World) : Response * World :=
  let '(dbOwner, dbName, dbTable, dbVersion, err) := GetODTV 2 r in
  on_error err as e return (ErrorPage StatusBadRequest e, w) otherwise
  if decide (dbTable = "")
  then (ErrorPage StatusBadRequest "No table name given", w) else
  let loggedInUser := fst (sessionUser r) in
  let '(bucket, id, err) := MinioBucketID dbOwner dbName dbVersion loggedInUser in
  on_error err as e return (ErrorPage StatusInternalServerError e, w) otherwise
  let '(sdb, err, w) := OpenMinioObject bucket id w in
  on_error err as _e
    return (ErrorPage StatusInternalServerError "Database query failed", w)
  otherwise
  let '(resultSet, _) := ReadSQLiteDBCSV_res sdb dbTable in
  let '(content, err) := csv_WriteAll resultSet in
  on_error err as _e
    return (ErrorPage StatusInternalServerError "Error when generating CSV", w)
  otherwise
  (Download (url_QueryEscape dbTable +:+ ".csv") "text/csv" content None, w).

(** *** createUserHandler

    [sess] is [session.Get(r)] with its attributes. *)
Definition createUserHandler (sess : option (gmap string Attr)) (r : Request)
  : list Effect :=
  match sess with
  | None => [DoErrorPage StatusBadRequest "Invalid user creation session"]
  | Some attrs =>
    match attrs !! "registrationinprogress" with
    | None => [DoErrorPage StatusBadRequest "Invalid user creation session"]
    | Some (AttrBool validRegSession) =>
      if negb validRegSession
      then [DoErrorPage StatusBadRequest "Invalid user creation session"] else
      match attrs !! "auth0id" with
      | None => [DoErrorPage StatusBadRequest "Invalid user creation id"]
      | Some (AttrString auth0ID) =>
        match attrs !! "email" with
        | None => [DoErrorPage StatusBadRequest "Invalid user creation email"]
        | Some (AttrString email) =>
          on_error (ParseFormErr r) as _e
            return [DoErrorPage StatusBadRequest
                      "Error when parsing user creation data"] otherwise
          let userName := PostFormValue r "username" in
          if decide (userName = "") then [DoRender selectUsernamePage] else
          on_error (ValidateUser userName) as _e
            return [DoSessionRemove;
                    DoErrorPage StatusBadRequest "Username failed validation"]
          otherwise
          on_error (ReservedUsernamesCheck userName) as e
            return [DoSessionRemove; DoErrorPage StatusBadRequest e] otherwise
          let '(exists_, err) := CheckUserExists userName in
          on_error err as _e
            return [DoSessionRemove;
                    DoErrorPage StatusInternalServerError "Username check failed"]
          otherwise
          if exists_
          then [DoSessionRemove;
                DoErrorPage StatusConflict "That username is already taken"] else
          on_error (AddUser_err auth0ID userName RandomString32 email) as _e
            return [DoSessionRemove;
                    DoErrorPage StatusInternalServerError
                      "Something went wrong during user creation"] otherwise
          [DoAddUser auth0ID userName RandomString32 email;
           DoSessionRemove;
           DoSessionAdd {[ "UserName" := AttrString userName ]};
           DoRedirect ("/" +:+ userName) StatusTemporaryRedirect]
        | Some _ => [DoPanic "interface conversion"]
        end
      | Some _ => [DoPanic "interface conversion"]
      end
    | Some _ => [DoPanic "interface conversion"]
    end
  end.

(** *** auth0CallbackHandler

    The exchange with the identity provider is the collaborators'; the
    handler's own steps follow the decoded profile. *)
Definition auth0CallbackHandler (r : Request) : list Effect :=
  on_error (oauth2_Exchange r) as _e
    return [DoErrorPage StatusInternalServerError "Login failed"] otherwise
  on_error (userinfo_Get r) as e
    return [DoErrorPage StatusInternalServerError e] otherwise
  let '(raw, err) := ioutil_ReadAll r in
  on_error err as e return [DoErrorPage StatusInternalServerError e] otherwise
  let '(profile, err) := json_Unmarshal raw in
  on_error err as e return [DoErrorPage StatusInternalServerError e] otherwise
  match profile !! "email" with
  | Some (AttrString email) =>
    match profile !! "user_id" with
    | Some (AttrString auth0ID) =>
      let '(userName, err) := UserNameFromAuth0ID auth0ID in
      on_error err as e return [DoErrorPage StatusInternalServerError e] otherwise
      let login :=
        [DoSessionAdd {[ "UserName" := AttrString userName ]};
         DoRedirect ("/" +:+ userName) StatusTemporaryRedirect] in
      if decide (userName = "") then
        let '(exists_, err) := CheckEmailExists email in
        on_error err as _e
          return [DoErrorPage StatusInternalServerError "Email check failed"]
        otherwise
        if exists_
        then [DoErrorPage StatusConflict
                "Can't create new account: Your email address is already associated with a different account in our system."]
        else
          [DoSessionAdd
             (<[ "registrationinprogress" := AttrBool true ]>
                (<[ "auth0id" := AttrString auth0ID ]>
                   {[ "email" := AttrString email ]}));
           DoRedirect "/selectusername" StatusTemporaryRedirect] ++ login
      else login
    | _ => [DoPanic "interface conversion"]
    end
  | _ => [DoPanic "interface conversion"]
  end.

(** The recurring session block as these handlers have it: a session
    without a user name is removed. *)
Definition session_block (r : Request) : list Effect :=
  match Session r with
  | Some None => [DoSessionRemove]
  | _ => []
  end.

(** *** prefHandler *)
Definition prefHandler (r : Request) : list Effect :=
  let '(loggedInUser, validSession) := sessionUser r in
  session_block r ++
  if negb validSession
  then [DoErrorPage StatusInternalServerError
          "Error: Must be logged in to view that page."] else
  on_error (ParseFormErr r) as _e
    return [DoErrorPage StatusBadRequest "Error when parsing preference data"]
  otherwise
  let maxRows := PostFormValue r "maxrows" in
  if decide (maxRows = "") then [DoRender (prefPage loggedInUser)] else
  on_error (Validate_Var maxRows "required,numeric,min=1,max=500") as _e
    return [DoErrorPage StatusBadRequest "Error when parsing preference data"]
  otherwise
  let '(maxRowsNum, err) := strconv_Atoi maxRows in
  on_error err as _e
    return [DoErrorPage StatusBadRequest "Error when parsing preference data"]
  otherwise
  on_error (SetPrefUserMaxRows_err loggedInUser maxRowsNum) as _e
    return [DoErrorPage StatusInternalServerError "Error when updating preferences"]
  otherwise
  [DoSetPrefUserMaxRows loggedInUser maxRowsNum;
   DoRedirect ("/" +:+ loggedInUser) StatusTemporaryRedirect].

(** *** starToggleHandler *)
Definition starToggleHandler (r : Request) : list Effect :=
  let '(dbOwner, dbName, err) := GetOD 2 r in
  on_error err as e return [DoErrorPage StatusBadRequest e] otherwise
  let '(loggedInUser, validSession) := sessionUser r in
  session_block r ++
  if negb validSession then [DoPrint "-1"] else
  on_error (ToggleDBStar_err loggedInUser dbOwner dbName) as _e
    return [DoPrint "-1"] otherwise
  let '(newStarCount, err) := DBStars dbOwner dbName in
  on_error err as _e
    return [DoToggleDBStar loggedInUser dbOwner dbName; DoPrint "-1"] otherwise
  [DoToggleDBStar loggedInUser dbOwner dbName;
   DoPrint (strconv_Itoa newStarCount)].

(** *** starsHandler, uploadFormHandler, logoutHandler *)
Definition starsHandler (r : Request) : list Effect :=
  let '(dbOwner, dbName, err) := GetOD 1 r in
  on_error err as e return [DoErrorPage StatusBadRequest e] otherwise
  [DoRender (starsPage dbOwner dbName)].

Definition uploadFormHandler (r : Request) : list Effect :=
  let '(loggedInUser, validSession) := sessionUser r in
  session_block r ++
  if negb validSession
  then [DoErrorPage StatusUnauthorized "You need to be logged in"]
  else [DoRender (uploadPage loggedInUser)].

Definition logoutHandler (r : Request) : list Effect :=
  match Session r with
  | Some _ => [DoSessionRemove; DoRedirect "/" StatusTemporaryRedirect]
  | None => [DoRedirect "/" StatusTemporaryRedirect]
  end.

(** *** Vocabulary for the properties *)

(** The number of separators in a path. *)
Fixpoint count_sep (sep : ascii) (s : string) : nat :=
  match s with
  | EmptyString => 0
  | String c rest => (if Ascii.eqb c sep then 1 else 0) + count_sep sep rest
  end.

Fixpoint contains (sep : ascii) (s : string) : bool :=
  match s with
  | EmptyString => false
  | String c rest => Ascii.eqb c sep || contains sep rest
  end.

(** [strings.Join] with a one-byte separator. *)
Fixpoint strings_Join (l : list string) (sep : ascii) : string :=
  match l with
  | [] => EmptyString
  | [x] => x
  | x :: rest => x +:+ String sep (strings_Join rest sep)
  end.


End FrontEnd.

(** The same request for another path. *)
Definition set_URL_Path (p : string) (r : Request) : Request :=
  mkRequest p (Form r) (PostForm r) (ParseFormErr r) (Session r) (FormFile r).


(** ** The concrete installation, continued

    Account data, validation rules and the CSV export for the
    installation of [Demo]: "alice" and "bob" have accounts, "admin" is
    reserved, and the identity provider reports a newcomer, "carol". *)
Module DemoSite.

Definition is_digit (c : ascii) : bool :=
  let n := nat_of_ascii c in ((48 <=? n) && (n <=? 57))%nat.

Definition numeric (s : string) : error :=
  if decide (s = "") then Some "required"
  else if forallb is_digit (list_ascii_of_string s) then None
  else Some "numeric".

Definition newline : string := String (ascii_of_nat 10) EmptyString.

(** The rows of a table as text, the column names first. *)
Definition csv_rows (sdb : Conn) (dbTable : string) : list (list string) * error :=
  match Demo.database_of sdb with
  | None => ([], Some "Error when reading data from the SQLite database")
  | Some db =>
      match Demo.find_table dbTable db with
      | None => ([], Some ("no such table: " +:+ dbTable))
      | Some t =>
          (match Demo.t_rows t with
           | [] => []
           | first :: _ => [map fst first]
           end ++ map (map snd) (Demo.t_rows t), None)
      end
  end.

Definition csv_text (records : list (list string)) : string :=
  Demo.join "" (map (fun fields => Demo.join "," fields +:+ newline) records).

Definition carol_profile : gmap string Attr :=
  <[ "email" := AttrString "carol@example.org" ]>
    {[ "user_id" := AttrString "auth0|carol" ]}.

Definition site : Site := {|
  ValidateFileName := Demo.required;
  ValidateFolder := Demo.required;
  ValidateBranchName := Demo.validate_name;
  ValidateCommitID := Demo.validate_name;
  ValidateLicence := Demo.required;
  ValidateUser := Demo.validate_name;
  ValidateUserDB := fun u d =>
    match Demo.validate_name u with Some e => Some e | None => Demo.required d end;
  Validate_Var := fun v _ => numeric v;
  ReservedUsernamesCheck := fun u =>
    if decide (u = "admin") then Some "That username is not available: admin"
    else None;
  CheckUserExists := fun u => (bool_decide (u ∈ ["alice"; "bob"]), None);
  CheckEmailExists := fun e => (bool_decide (e = "alice@example.org"), None);
  UserNameFromAuth0ID := fun i =>
    if decide (i = "auth0|alice") then ("alice", None) else ("", None);
  AddUser_err := fun _ _ _ _ => None;
  SetPrefUserMaxRows_err := fun _ _ => None;
  ToggleDBStar_err := fun _ _ _ => None;
  DBStars := fun _ d =>
    if decide (d = "d.db") then (7, None) else (0, Some "Database query failure");
  ReadSQLiteDBCSV_res := csv_rows;
  csv_WriteAll := fun records => (csv_text records, None);
  RandomString32 := "0123456789abcdef0123456789abcdef";
  oauth2_Exchange := fun _ => None;
  userinfo_Get := fun _ => None;
  ioutil_ReadAll := fun _ => ("(profile of carol)", None);
  json_Unmarshal := fun _ => (carol_profile, None) |}.

(** The installation of [Demo.roomy] with a metadata store that refuses
    every insert. *)
Definition refusing : Com := {|
  ValidateUserFilename := @ValidateUserFilename Demo.roomy;
  ValidatePGTable := @ValidatePGTable Demo.roomy;
  ValidateDB := @ValidateDB Demo.roomy;
  GetODTV := @GetODTV Demo.roomy;
  GetODV := @GetODV Demo.roomy;
  MinioBucketID := @MinioBucketID Demo.roomy;
  CheckUserDBAccess := @CheckUserDBAccess Demo.roomy;
  PrefUserMaxRows := @PrefUserMaxRows Demo.roomy;
  HighestDBVersion := @HighestDBVersion Demo.roomy;
  MinioUserBucket := @MinioUserBucket Demo.roomy;
  CheckMinioIDAvail := @CheckMinioIDAvail Demo.roomy;
  AddDatabase_err := fun _ => Some "pq: connection refused";
  OpenMinioObject_err := @OpenMinioObject_err Demo.roomy;
  MinioHandle_err := @MinioHandle_err Demo.roomy;
  StoreMinioObject_res := @StoreMinioObject_res Demo.roomy;
  io_Copy := @io_Copy Demo.roomy;
  sqlite_Open_err := @sqlite_Open_err Demo.roomy;
  Tables_res := @Tables_res Demo.roomy;
  ReadSQLiteDB_res := @ReadSQLiteDB_res Demo.roomy;
  ReadSQLiteDBCols_res := @ReadSQLiteDBCols_res Demo.roomy;
  GetSQLiteRowCount_res := @GetSQLiteRowCount_res Demo.roomy;
  TempFile_err := @TempFile_err Demo.roomy;
  TempFile_Write_err := @TempFile_Write_err Demo.roomy;
  RandomString_nth := @RandomString_nth Demo.roomy;
  sha256_Sum256 := @sha256_Sum256 Demo.roomy;
  url_QueryEscape := @url_QueryEscape Demo.roomy;
  json_Marshal := @json_Marshal Demo.roomy;
  json_MarshalIndent := @json_MarshalIndent Demo.roomy |}.

(** A registration session as [auth0CallbackHandler] writes it. *)
Definition carol_registration : gmap string Attr :=
  <[ "registrationinprogress" := AttrBool true ]>
    (<[ "auth0id" := AttrString "auth0|carol" ]>
       {[ "email" := AttrString "carol@example.org" ]}).

(** A request with form data in its body. *)
Definition post (path : string) (form : list (string * string))
    (user : option string) : Request :=
  mkRequest path (list_to_map form) (list_to_map form) None (Some <$> user) None.

End DemoSite.

(** * Properties *)

(** ** The digest and the hexadecimal encoding compute *)

Example md5_empty : md5_hex "" = "d41d8cd98f00b204e9800998ecf8427e".
Proof. vm_compute. reflexivity. Qed.

Example md5_abc : md5_hex "abc" = "900150983cd24fb0d6963f7d28e17f72".
Proof. vm_compute. reflexivity. Qed.

Example md5_two_blocks :
  md5_hex "aaaaaaaaaaaaaaaaaaaaaaaaaaaaaaaaaaaaaaaaaaaaaaaaaaaaaaaaaaaaaaaa"
  = "014842d480b571495a4a0363793f7367".
Proof. vm_compute. reflexivity. Qed.

(** ** Cache keys *)

(** No hexadecimal digit is the letter that starts "pub-". *)
Lemma hex_digit_not_p (v : Z) : Hex.digit v <> "p"%char.
Proof.
  unfold Hex.digit. generalize (Z.to_nat v). intros n.
  do 17 (destruct n as [|n]; [simpl; discriminate|]).
  simpl. discriminate.
Qed.

Lemma hex_encoding_not_pub (src : list Z) (rest : string) :
  Hex.EncodeToString src <> "pub-" +:+ rest.
Proof.
  destruct src as [|v src]; simpl.
  - discriminate.
  - intros H. injection H as H _. exact (hex_digit_not_p _ H).
Qed.

Lemma append_inj_l (p a b : string) : p +:+ a = p +:+ b -> a = b.
Proof.
  induction p as [|c p IH]; simpl; intros H; [exact H|].
  injection H as H. exact (IH H).
Qed.

Lemma private_key_not_public (s1 s2 : string) :
  "visdat-" +:+ md5_hex s1 <> "visdat-pub-" +:+ md5_hex s2.
Proof.
  unfold md5_hex. intros H.
  change ("visdat-pub-" +:+ ?x) with ("visdat-" +:+ ("pub-" +:+ x)) in H.
  apply append_inj_l in H.
  exact (hex_encoding_not_pub _ _ H).
Qed.

(** C1.  For fixed query parameters, any two requesters that are not the
    owner (the anonymous "" included) get the same cache key, and the key
    the owner gets is a different one. *)
Theorem cache_key_identity_rule
    (owner db table xCol yCol wCol wType wVal r1 r2 : string) :
  r1 <> owner -> r2 <> owner ->
  pageCacheKey r1 owner db table xCol yCol wCol wType wVal
  = pageCacheKey r2 owner db table xCol yCol wCol wType wVal
  /\ pageCacheKey owner owner db table xCol yCol wCol wType wVal
     <> pageCacheKey r1 owner db table xCol yCol wCol wType wVal.
Proof.
  intros H1 H2. unfold pageCacheKey.
  destruct (decide (r1 <> owner)) as [_|N]; [|contradiction].
  destruct (decide (r2 <> owner)) as [_|N]; [|contradiction].
  destruct (decide (owner <> owner)) as [N|_]; [congruence|].
  split; [reflexivity|]. apply private_key_not_public.
Qed.

(** The example of the specification: anonymous and "bob" against
    "alice". *)
Lemma cache_key_identity_rule_witness :
  pageCacheKey "" "alice" "d" "t" "" "" "" "" ""
  = pageCacheKey "bob" "alice" "d" "t" "" "" "" "" ""
  /\ pageCacheKey "alice" "alice" "d" "t" "" "" "" "" ""
     <> pageCacheKey "" "alice" "d" "t" "" "" "" "" "".
Proof.
  apply (cache_key_identity_rule "alice" "d" "t" "" "" "" "" "" "" "bob");
    discriminate.
Defined.

(** ** Table view *)

Section TableView.
Context {com : Com}.

Lemma tablePresent_acc (t : string) (tables : list string) (acc : bool) :
  fold_left (fun present tableName => if decide (t = tableName) then true else present)
    tables acc = true <-> acc = true \/ t ∈ tables.
Proof.
  revert acc. induction tables as [|x l IH]; intros acc; simpl.
  - rewrite elem_of_nil. tauto.
  - rewrite IH, elem_of_cons. destruct (decide (t = x)) as [->|N]; tauto.
Qed.

Lemma tablePresent_spec (t : string) (tables : list string) :
  tablePresent t tables = true <-> t ∈ tables.
Proof.
  unfold tablePresent. rewrite tablePresent_acc.
  split; [intros [H|H]; [discriminate|exact H]|auto].
Qed.

Lemma OpenMinioObject_opened (bucket id : string) (w : World) :
  OpenMinioObject bucket id w
  = (opened bucket id, OpenMinioObject_err bucket id,
     match opened bucket id with Some h => acquire h w | None => w end).
Proof.
  unfold OpenMinioObject, opened.
  destruct (OpenMinioObject_err bucket id); reflexivity.
Qed.

(** The handler after the table list has been read. *)
Lemma table_view_run (r : Request) (w : World) (t bucket id : string)
    (tables : list string) :
  table_view_lists r t bucket id tables ->
  tableViewHandler r w =
  let sdb := opened bucket id in
  let w1 := issue (QTables sdb) (snd (OpenMinioObject bucket id w)) in
  match tables with
  | [] => (NoOutput, w1)
  | table0 :: _ =>
    if bool_decide (t <> "") && negb (tablePresent t tables)
    then (ErrorPage StatusBadRequest "Requested table does not exist", w1)
    else
      let t' := if decide (t = "") then table0 else t in
      let w2 := issue (QReadSQLiteDB sdb t' (table_view_maxRows r)) w1 in
      let w3 := issue (QGetSQLiteRowCount sdb t') w2 in
      match ReadSQLiteDB_res sdb t' (table_view_maxRows r) with
      | (_, Some e) => (ErrorPage StatusBadRequest e, w2)
      | (dataRows, None) =>
        match GetSQLiteRowCount_res sdb t' with
        | (_, Some e) => (ErrorPage StatusInternalServerError e, w3)
        | (total, None) =>
          if 0 <? RowCount dataRows then
            match json_MarshalIndent (set_TotalRows total dataRows) with
            | (_, Some _) => (NoOutput, w3)
            | (js, None) => (Body js, w3)
            end
          else (Body "{]", w3)
        end
      end
  end.
Proof.
  intros (o & d & v & H1 & H2 & H3 & H4).
  unfold tableViewHandler. rewrite H1, H2. cbv beta iota zeta.
  destruct (decide (id = "")) as [E|_]; [contradiction|].
  rewrite OpenMinioObject_opened. cbv beta iota.
  unfold Tables. rewrite H4. cbn [snd].
  destruct tables as [|table0 tl]; [reflexivity|].
  destruct (bool_decide (t <> "") && negb (tablePresent t (table0 :: tl)));
    [reflexivity|].
  unfold ReadSQLiteDB, GetSQLiteRowCount, table_view_maxRows.
  destruct (ReadSQLiteDB_res _ _ _) as [dataRows [e|]]; [reflexivity|].
  destruct (GetSQLiteRowCount_res _ _) as [total [e|]]; reflexivity.
Qed.

End TableView.

(** ** Visualisation data *)

Section VisData.
Context {com : Com}.

Lemma keep_nonempty (s : string) : (if decide (s <> "") then s else "") = s.
Proof. destruct (decide (s <> "")) as [_|N]; [reflexivity|]. by destruct (decide (s = "")). Qed.

Lemma validated_or_empty (s : string) :
  s = "" \/ ValidatePGTable s = None ->
  (if decide (s <> "") then ValidatePGTable s else None) = None.
Proof.
  intros [->|H]; destruct (decide _) as [N|_]; congruence.
Qed.

Lemma where_type_passes (s : string) :
  s = "" \/ s ∈ whereTypes ->
  (if decide (s = "") then Some ""
   else if bool_decide (s ∈ whereTypes) then Some s else None) = Some s.
Proof.
  intros H. destruct (decide (s = "")) as [->|N]; [reflexivity|].
  destruct H as [H|H]; [contradiction|].
  by rewrite bool_decide_eq_true_2.
Qed.

(** The handler once it has decided to ask the engine. *)
Lemma vis_run (r : Request) (w : World) (userName dbName t : string)
    (sdb : Conn) (tables : list string) :
  vis_queries r w userName dbName t sdb tables ->
  visData r w =
  let q := vis_query r sdb t in
  let w1 := issue (QTables sdb)
              (match sdb with Some h => acquire h w | None => w end) in
  let w2 := issue q w1 in
  match answer q with
  | (_, Some e) => (ErrorPage StatusBadRequest e, w2)
  | (data, None) =>
    match json_Marshal data with
    | (_, Some _) => (NoOutput, w2)
    | (js, None) => (Body js, CacheData (vis_cache_key r userName dbName t) js w2)
    end
  end.
Proof.
  intros (info & H1 & (Hx & Hy & Hc & Ht) & H3 & H4 & H5 & -> & H7 & H8).
  unfold visData. rewrite H1. cbv beta iota zeta.
  rewrite (validated_or_empty _ Hx), (validated_or_empty _ Hy),
    (validated_or_empty _ Hc), (where_type_passes _ Ht), !keep_nonempty, H3.
  cbv beta iota. fold (vis_cache_key r userName dbName t).
  unfold GetCachedData. rewrite H4.
  unfold OpenMinioObject. rewrite H5. cbv beta iota.
  unfold Tables. rewrite H7.
  destruct tables as [|table0 tl]; [contradiction|].
  unfold vis_query. fold (vis_whereClauses r).
  destruct (bool_decide (FormValue r "xcol" <> "") && bool_decide (FormValue r "ycol" <> ""));
    cbn [answer]; unfold ReadSQLiteDBCols, ReadSQLiteDB.
  - destruct (ReadSQLiteDBCols_res _ _ _ _ _ _ _) as [data [e|]]; [reflexivity|].
    destruct (json_Marshal data) as [js [e|]]; reflexivity.
  - destruct (ReadSQLiteDB_res _ _ _) as [data [e|]]; [reflexivity|].
    destruct (json_Marshal data) as [js [e|]]; reflexivity.
Qed.

End VisData.

(** ** What the handlers send to the engine *)

Section Traces.
Context {com : Com}.

Lemma queries_OpenMinioObject (bucket id : string) (w : World) :
  queries (snd (OpenMinioObject bucket id w)) = queries w.
Proof.
  unfold OpenMinioObject. destruct (OpenMinioObject_err bucket id); reflexivity.
Qed.

(** Every successful table view answer other than the empty set indicator
    is the serialized record set of the reader with the result of the
    count statement written into it. *)
Lemma table_view_body_total (r : Request) (w w' : World) (js : string) :
  tableViewHandler r w = (Body js, w') -> js <> "{]" ->
  exists sdb t data total,
    queries w' = queries w ++ [QTables sdb;
                               QReadSQLiteDB sdb t (table_view_maxRows r);
                               QGetSQLiteRowCount sdb t]
    /\ ReadSQLiteDB_res sdb t (table_view_maxRows r) = (data, None)
    /\ GetSQLiteRowCount_res sdb t = (total, None)
    /\ json_MarshalIndent (set_TotalRows total data) = (js, None).
Proof.
  unfold tableViewHandler, Tables, ReadSQLiteDB, GetSQLiteRowCount.
  fold (table_view_maxRows r).
  intros H Hjs.
  repeat (case_match; simplify_eq; try discriminate);
    match goal with
    | Ho : OpenMinioObject ?b ?i w = (?c, _, ?w0),
      Hr : ReadSQLiteDB_res ?c ?t _ = (?d, None),
      Hc : GetSQLiteRowCount_res ?c ?t = (?n, None) |- _ =>
        exists c, t, d, n;
        pose proof (queries_OpenMinioObject b i w) as Hq;
        rewrite Ho in Hq; simpl in Hq; simpl; rewrite Hq, <- !app_assoc
    end; auto.
Qed.

(** The statements of one run of the table view handler: the table list,
    then at most one read with the requester's row limit, then at most
    one count. *)
Lemma table_view_trace (r : Request) (w : World) :
  exists new,
    queries (snd (tableViewHandler r w)) = queries w ++ new
    /\ forall sdb t n, QReadSQLiteDB sdb t n ∈ new -> n = table_view_maxRows r.
Proof.
  unfold tableViewHandler, Tables, ReadSQLiteDB, GetSQLiteRowCount.
  fold (table_view_maxRows r).
  repeat (case_match; simplify_eq);
    try (exists []; simpl; rewrite app_nil_r; split;
         [reflexivity | intros ? ? ? Hin; by apply elem_of_nil in Hin]);
    match goal with
    | Ho : OpenMinioObject ?b ?i w = (?c, _, ?w0) |- _ =>
        pose proof (queries_OpenMinioObject b i w) as Hq;
        rewrite Ho in Hq; simpl in Hq; simpl; rewrite Hq, <- ?app_assoc
    end;
    (eexists; split; [reflexivity|]);
    intros ? ? ? Hin; simpl in Hin;
    repeat (apply elem_of_cons in Hin as [Hin|Hin]; simplify_eq);
    try reflexivity; by apply elem_of_nil in Hin.
Qed.

(** The statements of one run of [visData]: nothing, or the table list,
    or the table list and the one read of the request. *)
Lemma vis_trace (r : Request) (w : World) :
  exists new,
    queries (snd (visData r w)) = queries w ++ new
    /\ (new = []
        \/ exists sdb,
             new = [QTables sdb]
             \/ exists userName dbName t,
                  GetODT 2 r = (userName, dbName, t, None)
                  /\ vis_params_pass r
                  /\ new = [QTables sdb; vis_query r sdb t]).
Proof.
  unfold visData.
  destruct (GetODT 2 r) as [[[userName dbName] t] [e|]] eqn:H1;
    [exists []; simpl; rewrite app_nil_r; auto|].
  cbv beta iota zeta.
  destruct (if decide (FormValue r "xcol" <> "") then _ else _) eqn:Hx;
    [exists []; simpl; rewrite app_nil_r; auto|].
  destruct (if decide (FormValue r "ycol" <> "") then _ else _) eqn:Hy;
    [exists []; simpl; rewrite app_nil_r; auto|].
  destruct (if decide (FormValue r "wherecol" <> "") then _ else _) eqn:Hc;
    [exists []; simpl; rewrite app_nil_r; auto|].
  destruct (if decide (FormValue r "wheretype" = "") then _ else _) as [wType|] eqn:Ht;
    [|exists []; simpl; rewrite app_nil_r; auto].
  assert (Hpass : vis_params_pass r).
  { repeat split.
    - destruct (decide (FormValue r "xcol" <> "")) as [_|N]; [auto|left].
      by destruct (decide (FormValue r "xcol" = "")).
    - destruct (decide (FormValue r "ycol" <> "")) as [_|N]; [auto|left].
      by destruct (decide (FormValue r "ycol" = "")).
    - destruct (decide (FormValue r "wherecol" <> "")) as [_|N]; [auto|left].
      by destruct (decide (FormValue r "wherecol" = "")).
    - destruct (decide (FormValue r "wheretype" = "")) as [|N]; [auto|right].
      destruct (bool_decide (FormValue r "wheretype" ∈ whereTypes)) eqn:Hb;
        [|discriminate].
      by apply bool_decide_eq_true_1 in Hb. }
  assert (wType = FormValue r "wheretype") as ->.
  { destruct Hpass as (_ & _ & _ & Hw).
    rewrite (where_type_passes _ Hw) in Ht. congruence. }
  rewrite !keep_nonempty.
  destruct (CheckUserDBAccess _ _ _) as [info [e|]];
    [exists []; simpl; rewrite app_nil_r; auto|].
  destruct (GetCachedData _ w) as [[|] cached];
    [exists []; simpl; rewrite app_nil_r; auto|].
  unfold OpenMinioObject.
  destruct (OpenMinioObject_err _ _) as [e|];
    [exists []; simpl; rewrite app_nil_r; auto|].
  cbv beta iota. unfold Tables.
  set (sdb := Some (MinioSQLite (MinioBkt info) (MinioId info))).
  destruct (Tables_res sdb) as [tables [e|]];
    [exists [QTables sdb]; simpl; eauto|].
  destruct tables as [|table0 tl]; [exists [QTables sdb]; simpl; eauto|].
  exists [QTables sdb; vis_query r sdb t]. split.
  - unfold vis_query. fold (vis_whereClauses r).
    destruct (bool_decide (FormValue r "xcol" <> "")
              && bool_decide (FormValue r "ycol" <> ""));
      unfold ReadSQLiteDBCols, ReadSQLiteDB;
      repeat (case_match; simplify_eq); simpl; by rewrite <- app_assoc.
  - right. exists sdb. right. exists userName, dbName, t. auto.
Qed.

End Traces.

(** ** Handles *)

Section Handles.
Context {com : Com}.

Lemma release_acquire (h : Handle) (w : World) :
  open_handles (release (Some h) (acquire h w)) = open_handles w.
Proof. simpl. destruct (decide (h = h)); [reflexivity|contradiction]. Qed.

(** The download handler closes the object it opened, on every path. *)
Lemma download_releases (r : Request) (w : World) :
  open_handles (snd (downloadHandler r w)) = open_handles w.
Proof.
  unfold downloadHandler, MinioHandle, MinioHandleClose, defer.
  repeat (case_match; simplify_eq); try reflexivity.
  apply release_acquire.
Qed.

(** The table view handler has no statement that closes its connection:
    once the object is open it stays open, whichever way the handler
    ends. *)
Lemma table_view_keeps_handle (r : Request) (w : World) (t bucket id : string)
    (tables : list string) :
  table_view_lists r t bucket id tables ->
  OpenMinioObject_err bucket id = None ->
  open_handles (snd (tableViewHandler r w))
  = MinioSQLite bucket id :: open_handles w.
Proof.
  intros H Ho. rewrite (table_view_run r w t bucket id tables H).
  rewrite OpenMinioObject_opened. unfold opened. rewrite Ho.
  cbv zeta. repeat (case_match; simplify_eq); reflexivity.
Qed.


End Handles.

(** ** Upload *)

Lemma GoInt_wrap_in_range (x : Z) : GoInt.in_range x -> GoInt.wrap x = x.
Proof.
  unfold GoInt.in_range, GoInt.min_int, GoInt.max_int, GoInt.wrap.
  intros H. rewrite Z.mod_small; lia.
Qed.

Lemma newVer_spec (highVer : Z) :
  highVer < GoInt.max_int ->
  newVer highVer = if 0 <? highVer then highVer + 1 else 1.
Proof.
  intros H. unfold newVer. destruct (0 <? highVer) eqn:E; [|reflexivity].
  apply Z.ltb_lt in E. apply GoInt_wrap_in_range.
  unfold GoInt.in_range, GoInt.min_int, GoInt.max_int in *. lia.
Qed.

Section Upload.
Context {com : Com}.

Lemma iter_draw_succ (k : nat) (w : World) :
  Nat.iter k draw (draw w) = Nat.iter (S k) draw w.
Proof. induction k as [|k IH]; simpl; [reflexivity|]. by rewrite IH. Qed.

(** Only the random source moves while a name is looked for. *)
Lemma genMinioID_world (fuel : nat) (u : string) (w : World) minioID err w' :
  genMinioID fuel u w = Some (minioID, err, w') ->
  open_handles w' = open_handles w /\ queries w' = queries w
  /\ cache w' = cache w /\ databases w' = databases w /\ objects w' = objects w.
Proof.
  revert w. induction fuel as [|fuel IH]; intros w; simpl; [discriminate|].
  destruct (CheckMinioIDAvail _ _) as [[|] [e|]]; intros H; simplify_eq; auto.
  apply IH in H. exact H.
Qed.

(** While every generated name is taken the loop goes on. *)
Lemma genMinioID_all_taken (u : string) (fuel : nat) (w : World) :
  (forall i, (rng_draws w <= i)%nat ->
             CheckMinioIDAvail u (attempt i) = (false, None)) ->
  genMinioID fuel u w = None.
Proof.
  revert w. induction fuel as [|fuel IH]; intros w H; simpl; [reflexivity|].
  fold (attempt (rng_draws w)). rewrite (H _ (Nat.le_refl _)).
  apply IH. simpl. intros i Hi. apply H. lia.
Qed.

(** The loop ends at the first name that is free or whose check fails. *)
Lemma genMinioID_first_exit (u : string) (k : nat) :
  forall (w : World) (ok : bool) (err : error) (fuel : nat),
  (forall i, (rng_draws w <= i < rng_draws w + k)%nat ->
             CheckMinioIDAvail u (attempt i) = (false, None)) ->
  CheckMinioIDAvail u (attempt (rng_draws w + k)) = (ok, err) ->
  ok = true \/ err <> None ->
  (k < fuel)%nat ->
  genMinioID fuel u w
  = Some (attempt (rng_draws w + k), err, Nat.iter (S k) draw w).
Proof.
  induction k as [|k IH]; intros w ok err fuel Htaken Hexit Hoe Hfuel;
    (destruct fuel as [|fuel]; [lia|]); simpl genMinioID;
    fold (attempt (rng_draws w)).
  - rewrite Nat.add_0_r in *. rewrite Hexit.
    destruct err as [e|]; [reflexivity|].
    destruct Hoe as [->|N]; [reflexivity|congruence].
  - rewrite (Htaken (rng_draws w)) by lia.
    rewrite (IH (draw w) ok err fuel).
    + simpl rng_draws. rewrite iter_draw_succ.
      by replace (S (rng_draws w) + k)%nat with (rng_draws w + S k)%nat by lia.
    + simpl rng_draws. intros i Hi. apply Htaken. lia.
    + simpl rng_draws.
      by replace (S (rng_draws w) + k)%nat with (rng_draws w + S k)%nat by lia.
    + exact Hoe.
    + lia.
Qed.

(** An upload that has ended either never got to the loop, and then ends
    the same way without any attempt, or its loop has ended. *)
Lemma upload_ends_with_loop (fuel : nat) (r : Request) (w : World)
    (outcome : Response * World) :
  uploadDataHandler fuel r w = Some outcome ->
  uploadDataHandler 0 r w = Some outcome
  \/ exists w1 res, genMinioID fuel (fst (sessionUser r)) w1 = Some res.
Proof.
  unfold uploadDataHandler, defer_opt, sqlite_Open, Tables.
  intros H.
  repeat (case_match; simplify_eq; try (left; reflexivity));
    right; simpl; eauto.
Qed.

End Upload.

(** ** The claims *)

Section Claims.
Context {com : Com}.


(** C4 (as amended).  A successful table view answer (other than the
    empty set indicator) is the serialized record set with the result of
    a separate count statement on the displayed table as its total;
    [visData] sends no count statement and serializes the record set as
    the reader returned it. *)
Theorem total_rows_come_from_table_view_count (r : Request) (w : World) :
  (forall js w',
      tableViewHandler r w = (Body js, w') -> js <> "{]" ->
      exists sdb t data total,
        queries w' = queries w ++ [QTables sdb;
                                   QReadSQLiteDB sdb t (table_view_maxRows r);
                                   QGetSQLiteRowCount sdb t]
        /\ ReadSQLiteDB_res sdb t (table_view_maxRows r) = (data, None)
        /\ GetSQLiteRowCount_res sdb t = (total, None)
        /\ json_MarshalIndent (set_TotalRows total data) = (js, None))
  /\ List.filter is_count (queries (snd (visData r w)))
     = List.filter is_count (queries w)
  /\ (forall userName dbName t sdb tables data js,
         vis_queries r w userName dbName t sdb tables ->
         answer (vis_query r sdb t) = (data, None) ->
         json_Marshal data = (js, None) ->
         fst (visData r w) = Body js).
Proof.
  split; [|split].
  - intros js w'. apply table_view_body_total.
  - destruct (vis_trace r w) as (new & Hq & Hnew).
    rewrite Hq, List.filter_app.
    assert (List.filter is_count new = []) as ->; [|apply app_nil_r].
    destruct Hnew as [->|[sdb [->|(u & d & t & _ & _ & ->)]]];
      try reflexivity.
    unfold vis_query. by destruct (_ && _).
  - intros userName dbName t sdb tables data js H Ha Hj.
    rewrite (vis_run r w userName dbName t sdb tables H). cbv zeta.
    by rewrite Ha, Hj.
Qed.

(** C7 (as amended).  The row limit of a full dump depends on the
    handler: the table view handler reads with 10 for an anonymous
    requester and with the requester's stored preference otherwise;
    [visData] reads with 2500 whoever asks. *)
Theorem row_cap_depends_on_handler (r : Request) (w : World) :
  (forall sdb t n,
      QReadSQLiteDB sdb t n ∈ queries (snd (tableViewHandler r w)) ->
      QReadSQLiteDB sdb t n ∉ queries w ->
      n = if decide (fst (sessionUser r) = "") then 10
          else PrefUserMaxRows (fst (sessionUser r)))
  /\ (forall sdb t n,
         QReadSQLiteDB sdb t n ∈ queries (snd (visData r w)) ->
         QReadSQLiteDB sdb t n ∉ queries w ->
         n = 2500).
Proof.
  split; intros sdb t n Hin Hold.
  - destruct (table_view_trace r w) as (new & Hq & Hnew).
    rewrite Hq in Hin. apply elem_of_app in Hin as [Hin|Hin]; [contradiction|].
    rewrite (Hnew _ _ _ Hin). unfold table_view_maxRows.
    destruct (decide (fst (sessionUser r) <> "")) as [N|N];
      destruct (decide (fst (sessionUser r) = "")); try reflexivity;
      contradiction.
  - destruct (vis_trace r w) as (new & Hq & Hnew).
    rewrite Hq in Hin. apply elem_of_app in Hin as [Hin|Hin]; [contradiction|].
    destruct Hnew as [->|[sdb' [->|(u & d & t' & _ & _ & ->)]]].
    + by apply elem_of_nil in Hin.
    + apply list_elem_of_singleton in Hin. discriminate.
    + apply elem_of_cons in Hin as [Hin|Hin]; [discriminate|].
      apply list_elem_of_singleton in Hin.
      unfold vis_query in Hin. destruct (_ && _); by simplify_eq.
Qed.

(** C8.  The record a successful upload adds carries the highest stored
    version of (owner, name) plus one when that is above zero, and 1
    otherwise. *)
Theorem upload_version_number (fuel : nat) (r : Request) (w w' : World)
    (u : string) (handler : FilePart) :
  let highVer := fst (HighestDBVersion u (Filename handler) "/") in
  FormFile r = Some handler ->
  uploadDataHandler fuel r w = Some (UploadSucceeded u, w') ->
  highVer < GoInt.max_int ->
  exists rec,
    databases w' = databases w ++ [rec]
    /\ db_owner rec = u /\ db_name rec = Filename handler
    /\ db_version rec = if 0 <? highVer then highVer + 1 else 1.
Proof.
  intros highVer Hf H Hlt. rewrite <- (newVer_spec _ Hlt). subst highVer.
  unfold uploadDataHandler in H. rewrite Hf in H.
  unfold defer_opt, sqlite_Open, sqlite_Close, Tables, StoreMinioObject,
    AddDatabase in H.
  repeat (case_match; simplify_eq).
  match goal with
  | Hg : genMinioID _ _ _ = Some _ |- _ =>
      apply genMinioID_world in Hg as (_ & _ & _ & Hd & _)
  end.
  eexists. split; [simpl; rewrite Hd; reflexivity|].
  simpl. repeat split.
  match goal with Hh : HighestDBVersion _ _ _ = _ |- _ => by rewrite Hh end.
Qed.

(** C9 (as amended).  The loop that generates the object name has no
    attempt cap: it ends at the first generated name whose check says
    free or fails, and it is still running after any number of attempts
    while every generated name is taken. *)
Theorem object_id_loop_has_no_cap (u : string) (w : World) :
  (forall k ok err,
      (forall i, (rng_draws w <= i < rng_draws w + k)%nat ->
                 CheckMinioIDAvail u (attempt i) = (false, None)) ->
      CheckMinioIDAvail u (attempt (rng_draws w + k)) = (ok, err) ->
      ok = true \/ err <> None ->
      forall fuel, (k < fuel)%nat ->
        genMinioID fuel u w
        = Some (attempt (rng_draws w + k), err, Nat.iter (S k) draw w))
  /\ ((forall i, (rng_draws w <= i)%nat ->
                 CheckMinioIDAvail u (attempt i) = (false, None)) ->
      forall fuel, genMinioID fuel u w = None).
Proof.
  split.
  - intros k ok err Htaken Hexit Hoe fuel Hfuel.
    by apply (genMinioID_first_exit u k w ok err fuel).
  - intros Htaken fuel. by apply genMinioID_all_taken.
Qed.

(** C10 (as amended).  A two-column request that gets as far as the
    query (its column names pass validation, its WHERE type is empty or
    one of the seven accepted ones, access is granted, no answer is
    cached under its key, the object opens and lists a table) and that
    has a WHERE value but no WHERE type, or a WHERE type but no WHERE
    value, is read without any WHERE clause, with the 2500 row limit,
    and a successful read is answered with its JSON and nothing else. *)
Theorem mismatched_filter_is_dropped (r : Request) (w : World)
    (userName dbName t : string) (info : SQLiteDBinfo) (sdb : Conn)
    (tables : list string) :
  GetODT 2 r = (userName, dbName, t, None) ->
  vis_params_pass r ->
  CheckUserDBAccess (fst (sessionUser r)) userName dbName = (info, None) ->
  cache w !! vis_cache_key r userName dbName t = None ->
  OpenMinioObject_err (MinioBkt info) (MinioId info) = None ->
  sdb = Some (MinioSQLite (MinioBkt info) (MinioId info)) ->
  Tables_res sdb = (tables, None) -> tables <> [] ->
  FormValue r "xcol" <> "" -> FormValue r "ycol" <> "" ->
  (FormValue r "whereval" <> "" /\ FormValue r "wheretype" = "")
  \/ (FormValue r "wheretype" ∈ whereTypes /\ FormValue r "whereval" = "") ->
  let q := QReadSQLiteDBCols sdb t true true 2500 []
             [FormValue r "xcol"; FormValue r "ycol"] in
  queries (snd (visData r w)) = queries w ++ [QTables sdb; q]
  /\ forall data js,
       answer q = (data, None) -> json_Marshal data = (js, None) ->
       fst (visData r w) = Body js.
Proof.
  intros H1 H2 H3 H4 H5 H6 H7 H8 Hx Hy Hmis q.
  assert (H : vis_queries r w userName dbName t sdb tables).
  { exists info. auto 10. }
  assert (Hq : vis_query r sdb t = q).
  { unfold vis_query, vis_whereClauses, q.
    rewrite (bool_decide_eq_true_2 _ Hx), (bool_decide_eq_true_2 _ Hy).
    destruct Hmis as [[_ E]|[_ E]]; rewrite E; simpl;
      [by rewrite andb_false_r|reflexivity]. }
  rewrite (vis_run r w userName dbName t sdb tables H). cbv zeta.
  rewrite Hq. split.
  - subst sdb.
    repeat (case_match; simplify_eq); simpl; by rewrite <- app_assoc.
  - intros data js Ha Hj. by rewrite Ha, Hj.
Qed.


(** Whatever reaches the engine as a WHERE clause has one of the seven
    operators, the request's value as it came, and the request's column,
    which was checked unless it is empty. *)
Lemma where_clause_parts (r : Request) (w : World) (sdb : Conn) (t : string)
    (b1 b2 : bool) (n : Z) (filters : list WhereClause) (cols : list string)
    (f : WhereClause) :
  QReadSQLiteDBCols sdb t b1 b2 n filters cols ∈ queries (snd (visData r w)) ->
  QReadSQLiteDBCols sdb t b1 b2 n filters cols ∉ queries w ->
  f ∈ filters ->
  wc_Type f ∈ whereTypes
  /\ wc_Value f = FormValue r "whereval" /\ wc_Value f <> ""
  /\ wc_Column f = FormValue r "wherecol"
  /\ (wc_Column f = "" \/ ValidatePGTable (wc_Column f) = None).
Proof.
  intros Hin Hold Hf. destruct (vis_trace r w) as (new & Hq & Hnew).
  rewrite Hq in Hin. apply elem_of_app in Hin as [Hin|Hin]; [contradiction|].
  destruct Hnew as [->|[sdb' [->|(u & d & t' & _ & Hpass & ->)]]].
  - by apply elem_of_nil in Hin.
  - apply list_elem_of_singleton in Hin. discriminate.
  - apply elem_of_cons in Hin as [Hin|Hin]; [discriminate|].
    apply list_elem_of_singleton in Hin.
    unfold vis_query in Hin. destruct (_ && _); [|discriminate].
    injection Hin as _ _ _ _ _ Hfs _. subst filters.
    unfold vis_whereClauses in Hf.
    destruct (bool_decide (FormValue r "whereval" <> "")) eqn:Ev;
      destruct (bool_decide (FormValue r "wheretype" <> "")) eqn:Et;
      simpl in Hf; try by apply elem_of_nil in Hf.
    apply list_elem_of_singleton in Hf. subst f. simpl.
    apply bool_decide_eq_true_1 in Ev, Et.
    destruct Hpass as (_ & _ & Hc & [Hw|Hw]); [contradiction|].
    auto.
Qed.

End Claims.

(** ** The claims on the concrete installation *)




(** C3.  A table view of a table without rows: the handler answers with
    the two bytes "{]", which is no JSON text. *)
Theorem empty_table_view_is_malformed :
  tableViewHandler (com := Demo.roomy) (Demo.view "d.db" "empty" None) Demo.w0
  = (Body "{]",
     mkWorld [MinioSQLite "alice-bucket" "obj1.db"]
       [QTables Demo.sdb1; QReadSQLiteDB Demo.sdb1 "empty" 10;
        QGetSQLiteRowCount Demo.sdb1 "empty"] ∅ [] [] 0)
  /\ brackets_nest [] "{]" = false.
Proof. split; vm_compute; reflexivity. Qed.

(** An anonymous table view and a two-column read of table "t". *)
Lemma total_rows_come_from_table_view_count_witness :
  let run := tableViewHandler (com := Demo.roomy) (Demo.view "d.db" "t" None)
               Demo.w0 in
  let js := match fst run with Body b => b | _ => "" end in
  (exists sdb t data total,
      queries (snd run)
      = queries Demo.w0 ++ [QTables sdb;
                            QReadSQLiteDB sdb t
                              (table_view_maxRows (com := Demo.roomy)
                                 (Demo.view "d.db" "t" None));
                            QGetSQLiteRowCount sdb t]
      /\ ReadSQLiteDB_res (Com := Demo.roomy) sdb t
           (table_view_maxRows (com := Demo.roomy) (Demo.view "d.db" "t" None))
         = (data, None)
      /\ GetSQLiteRowCount_res (Com := Demo.roomy) sdb t = (total, None)
      /\ json_MarshalIndent (Com := Demo.roomy) (set_TotalRows total data)
         = (js, None))
  /\ fst (visData (com := Demo.roomy)
            (Demo.vis [("table", "t"); ("xcol", "a"); ("ycol", "b")] None)
            Demo.w0)
     = Body (fst (Demo.marshal
                    (fst (Demo.read Demo.sdb1 "t" 2500 [] (Some ["a"; "b"]))))).
Proof.
  intros run js.
  pose proof (total_rows_come_from_table_view_count (com := Demo.roomy)
                (Demo.view "d.db" "t" None) Demo.w0) as (A & _ & _).
  pose proof (total_rows_come_from_table_view_count (com := Demo.roomy)
                (Demo.vis [("table", "t"); ("xcol", "a"); ("ycol", "b")] None)
                Demo.w0) as (_ & _ & C).
  split.
  - apply (A js (snd run)); [vm_compute; reflexivity|vm_compute; discriminate].
  - apply (C "alice" "d.db" "t" Demo.sdb1 Demo.d_tables
             (fst (Demo.read Demo.sdb1 "t" 2500 [] (Some ["a"; "b"]))));
      try (vm_compute; reflexivity).
    exists (mkDBinfo "alice-bucket" "obj1.db" []).
    repeat split; try (vm_compute; reflexivity);
      try (left; vm_compute; reflexivity);
      try (right; vm_compute; reflexivity).
    discriminate.
Defined.

(** Against C4 as stated: a successful two-column read of a table of
    twelve rows is answered with a total of zero, and no count statement
    was sent. *)
Lemma vis_data_has_no_total_rows :
  exists data w',
    visData (com := Demo.roomy)
      (Demo.vis [("table", "t"); ("xcol", "a"); ("ycol", "b")] None) Demo.w0
    = (Body (fst (Demo.marshal data)), w')
    /\ RowCount data = 12 /\ TotalRows data = 0
    /\ GetSQLiteRowCount_res (Com := Demo.roomy) Demo.sdb1 "t" = (12, None)
    /\ List.filter is_count (queries w') = [].
Proof.
  exists (fst (Demo.read Demo.sdb1 "t" 2500 [] (Some ["a"; "b"]))).
  exists (snd (visData (com := Demo.roomy)
                 (Demo.vis [("table", "t"); ("xcol", "a"); ("ycol", "b")] None)
                 Demo.w0)).
  repeat split; vm_compute; reflexivity.
Qed.

(** C5.  A table view request leaves the connection it opened on the
    stored object open when it has answered; the download of the same
    database leaves nothing open. *)
Theorem table_view_leaves_handle_open :
  open_handles
    (snd (tableViewHandler (com := Demo.roomy) (Demo.view "d.db" "t" None)
            Demo.w0))
  = [MinioSQLite "alice-bucket" "obj1.db"]
  /\ open_handles
       (snd (downloadHandler (com := Demo.roomy)
               (Demo.request "/x/download/alice/d.db" [] None) Demo.w0))
     = [].
Proof. split; vm_compute; reflexivity. Qed.

(** C6.  A request that names a WHERE type and a WHERE value but no WHERE
    column: a WHERE clause goes to the engine whose column is the empty
    string, which no check has seen and which the check turns down. *)
Theorem where_clause_with_unchecked_column :
  queries
    (snd (visData (com := Demo.roomy)
            (Demo.vis [("table", "t"); ("xcol", "a"); ("ycol", "b");
                       ("wheretype", "="); ("whereval", "3")] None)
            Demo.w0))
  = [QTables Demo.sdb1;
     QReadSQLiteDBCols Demo.sdb1 "t" true true 2500
       [mkWhereClause "" "=" "3"] ["a"; "b"]]
  /\ ValidatePGTable (Com := Demo.roomy) "" = Some "required".
Proof. split; vm_compute; reflexivity. Qed.

(** "bob", whose preference is 25, and an anonymous requester. *)
Lemma row_cap_depends_on_handler_witness :
  QReadSQLiteDB Demo.sdb1 "t" 25
    ∈ queries (snd (tableViewHandler (com := Demo.roomy)
                      (Demo.view "d.db" "t" (Some "bob")) Demo.w0))
  /\ 25 = PrefUserMaxRows (Com := Demo.roomy) "bob"
  /\ QReadSQLiteDB Demo.sdb1 "t" 10
       ∈ queries (snd (tableViewHandler (com := Demo.roomy)
                         (Demo.view "d.db" "t" None) Demo.w0))
  /\ QReadSQLiteDB Demo.sdb1 "t" 2500
       ∈ queries (snd (visData (com := Demo.roomy)
                         (Demo.vis [("table", "t")] (Some "bob")) Demo.w0)).
Proof.
  assert (H1 : QReadSQLiteDB Demo.sdb1 "t" 25
               ∈ queries (snd (tableViewHandler (com := Demo.roomy)
                                 (Demo.view "d.db" "t" (Some "bob")) Demo.w0))).
  { replace (queries _)
      with [QTables Demo.sdb1; QReadSQLiteDB Demo.sdb1 "t" 25;
            QGetSQLiteRowCount Demo.sdb1 "t"] by (vm_compute; reflexivity).
    apply list_elem_of_further, list_elem_of_here. }
  assert (H2 : QReadSQLiteDB Demo.sdb1 "t" 10
               ∈ queries (snd (tableViewHandler (com := Demo.roomy)
                                 (Demo.view "d.db" "t" None) Demo.w0))).
  { replace (queries _)
      with [QTables Demo.sdb1; QReadSQLiteDB Demo.sdb1 "t" 10;
            QGetSQLiteRowCount Demo.sdb1 "t"] by (vm_compute; reflexivity).
    apply list_elem_of_further, list_elem_of_here. }
  assert (H3 : QReadSQLiteDB Demo.sdb1 "t" 2500
               ∈ queries (snd (visData (com := Demo.roomy)
                                 (Demo.vis [("table", "t")] (Some "bob"))
                                 Demo.w0))).
  { replace (queries _)
      with [QTables Demo.sdb1; QReadSQLiteDB Demo.sdb1 "t" 2500]
      by (vm_compute; reflexivity).
    apply list_elem_of_further, list_elem_of_here. }
  split; [exact H1|]. split; [|split; [exact H2|exact H3]].
  pose proof (proj2 (row_cap_depends_on_handler (com := Demo.roomy)
                       (Demo.vis [("table", "t")] (Some "bob")) Demo.w0)
                _ _ _ H3 (not_elem_of_nil _)) as E3.
  pose proof (proj1 (row_cap_depends_on_handler (com := Demo.roomy)
                       (Demo.view "d.db" "t" None) Demo.w0)
                _ _ _ H2 (not_elem_of_nil _)) as E2.
  exact (proj1 (row_cap_depends_on_handler (com := Demo.roomy)
                  (Demo.view "d.db" "t" (Some "bob")) Demo.w0)
           _ _ _ H1 (not_elem_of_nil _)).
Defined.

(** Against C7 as stated: an anonymous full dump through [visData] is
    read with the limit 2500 and returns all twelve rows of the table. *)
Lemma vis_full_dump_exceeds_anonymous_cap :
  exists data w',
    Session (Demo.vis [("table", "t")] None) = None
    /\ visData (com := Demo.roomy) (Demo.vis [("table", "t")] None) Demo.w0
       = (Body (fst (Demo.marshal data)), w')
    /\ length (Records data) = 12%nat
    /\ queries w' = [QTables Demo.sdb1; QReadSQLiteDB Demo.sdb1 "t" 2500].
Proof.
  exists (fst (Demo.read Demo.sdb1 "t" 2500 [] None)).
  exists (snd (visData (com := Demo.roomy) (Demo.vis [("table", "t")] None)
                 Demo.w0)).
  repeat split; vm_compute; reflexivity.
Qed.

(** "alice" uploads "d.db", of which three versions are stored. *)
Lemma upload_version_number_witness :
  exists w' rec,
    uploadDataHandler (com := Demo.roomy) 1 (Demo.upload "alice" Demo.d_file)
      Demo.w0 = Some (UploadSucceeded "alice", w')
    /\ databases w' = [rec]
    /\ db_owner rec = "alice" /\ db_name rec = "d.db" /\ db_version rec = 4.
Proof.
  assert (E : exists w',
             uploadDataHandler (com := Demo.roomy) 1
               (Demo.upload "alice" Demo.d_file) Demo.w0
             = Some (UploadSucceeded "alice", w'))
    by (vm_compute; eauto).
  destruct E as [w' E]. exists w'.
  destruct (upload_version_number (com := Demo.roomy) 1
              (Demo.upload "alice" Demo.d_file) Demo.w0 w' "alice" Demo.d_file
              eq_refl E) as (rec & H1 & H2 & H3 & H4).
  - vm_compute. reflexivity.
  - exists rec. auto.
Defined.

(** Two taken names before a free one, and taken names only. *)
Lemma object_id_loop_has_no_cap_witness :
  genMinioID (com := Demo.busy) 3 "alice" Demo.w0
  = Some ("rnd2.db", None, Nat.iter 3 draw Demo.w0)
  /\ forall fuel, genMinioID (com := Demo.crowded) fuel "alice" Demo.w0 = None.
Proof.
  split.
  - apply (proj1 (object_id_loop_has_no_cap (com := Demo.busy) "alice" Demo.w0)
             2%nat true None).
    + intros i Hi. simpl in Hi.
      assert (i = 0 \/ i = 1)%nat as [->| ->] by lia; vm_compute; reflexivity.
    + vm_compute. reflexivity.
    + left. reflexivity.
    + lia.
  - apply (proj2 (object_id_loop_has_no_cap (com := Demo.crowded) "alice"
                    Demo.w0)).
    intros i _. reflexivity.
Defined.

(** Against C9 as stated: when every generated name is taken there is no
    number of attempts after which the upload has ended, with a storage
    error or with anything else. *)
Lemma crowded_upload_never_ends :
  ~ exists (cap : nat) (outcome : Response * World),
      uploadDataHandler (com := Demo.crowded) cap
        (Demo.upload "alice" Demo.d_file) Demo.w0 = Some outcome.
Proof.
  intros (cap & outcome & H).
  apply (upload_ends_with_loop (com := Demo.crowded)) in H
    as [H|(w1 & res & H)].
  - vm_compute in H. discriminate.
  - rewrite (genMinioID_all_taken (com := Demo.crowded)) in H;
      [discriminate | intros i _; reflexivity].
Qed.

(** A WHERE column and value without a WHERE type. *)
Lemma mismatched_filter_is_dropped_witness :
  let r := Demo.vis [("table", "t"); ("xcol", "a"); ("ycol", "b");
                     ("wherecol", "a"); ("whereval", "3")] None in
  let q := QReadSQLiteDBCols Demo.sdb1 "t" true true 2500 [] ["a"; "b"] in
  queries (snd (visData (com := Demo.roomy) r Demo.w0)) = [QTables Demo.sdb1; q]
  /\ fst (visData (com := Demo.roomy) r Demo.w0)
     = Body (fst (Demo.marshal (fst (answer (com := Demo.roomy) q)))).
Proof.
  intros r q.
  destruct (mismatched_filter_is_dropped (com := Demo.roomy) r Demo.w0
              "alice" "d.db" "t" (mkDBinfo "alice-bucket" "obj1.db" [])
              Demo.sdb1 Demo.d_tables) as [A B];
    try (vm_compute; reflexivity); try (vm_compute; discriminate).
  - repeat split; try (left; vm_compute; reflexivity);
      right; vm_compute; reflexivity.
  - left. split; [vm_compute; discriminate|vm_compute; reflexivity].
  - split; [exact A|].
    apply (B (fst (answer (com := Demo.roomy) q))); vm_compute; reflexivity.
Defined.

(** Against C10 as stated, each for a two-column request with
    mismatched WHERE parts.  A WHERE type that is none of the seven,
    without a value: the handler ends without a statement and without
    an answer.  The WHERE type ">=" without a value, after a request
    with the WHERE type ">" and the value "=": both run the same text
    through the digest, and the second is answered with the filtered
    rows of the first (none) instead of the twelve rows of the table.
    A table the reader rejects: the answer is the error.  A column name
    that fails validation, a database without tables: no answer at all.
    A requester without access: the error of the access check. *)
Lemma mismatched_filter_without_unfiltered_answer :
  (let r := Demo.vis [("table", "t"); ("xcol", "a"); ("ycol", "b");
                      ("wheretype", "foo")] None in
   FormValue r "wheretype" <> "" /\ FormValue r "whereval" = ""
   /\ visData (com := Demo.roomy) r Demo.w0 = (NoOutput, Demo.w0))
  /\ (let r1 := Demo.vis [("table", "t"); ("xcol", "a"); ("ycol", "b");
                          ("wherecol", "a"); ("wheretype", ">");
                          ("whereval", "=")] None in
      let r2 := Demo.vis [("table", "t"); ("xcol", "a"); ("ycol", "b");
                          ("wherecol", "a"); ("wheretype", ">=")] None in
      let w1 := snd (visData (com := Demo.roomy) r1 Demo.w0) in
      let filtered :=
        fst (Demo.read Demo.sdb1 "t" 2500 [mkWhereClause "a" ">" "="]
               (Some ["a"; "b"])) in
      let unfiltered :=
        fst (Demo.read Demo.sdb1 "t" 2500 [] (Some ["a"; "b"])) in
      FormValue r2 "wheretype" ∈ whereTypes /\ FormValue r2 "whereval" = ""
      /\ visData (com := Demo.roomy) r2 w1
         = (Body (fst (Demo.marshal filtered)), w1)
      /\ RowCount filtered = 0 /\ RowCount unfiltered = 12
      /\ fst (visData (com := Demo.roomy) r2 Demo.w0)
         = Body (fst (Demo.marshal unfiltered)))
  /\ fst (visData (com := Demo.roomy)
            (Demo.vis [("table", "nope"); ("xcol", "a"); ("ycol", "b");
                       ("whereval", "3")] None) Demo.w0)
     = ErrorPage StatusBadRequest "no such table: nope"
  /\ fst (visData (com := Demo.roomy)
            (Demo.vis [("table", "t"); ("xcol", "a b"); ("ycol", "b");
                       ("whereval", "3")] None) Demo.w0)
     = NoOutput
  /\ fst (visData (com := Demo.roomy)
            (Demo.request "/x/visdata/alice/blank.db"
               [("table", "t"); ("xcol", "a"); ("ycol", "b");
                ("whereval", "3")] None) Demo.w0)
     = NoOutput
  /\ fst (visData (com := Demo.roomy)
            (Demo.request "/x/visdata/alice/secret.db"
               [("table", "s"); ("xcol", "a"); ("ycol", "b");
                ("whereval", "3")] (Some "bob")) Demo.w0)
     = ErrorPage StatusBadRequest "The requested database doesn't exist".
Proof.
  cbv zeta. split; [|split].
  - split; [vm_compute; discriminate|split; vm_compute; reflexivity].
  - split.
    + replace (FormValue _ "wheretype") with ">=" by (vm_compute; reflexivity).
      unfold whereTypes. do 6 apply list_elem_of_further.
      apply list_elem_of_here.
    + repeat split; vm_compute; reflexivity.
  - repeat split; vm_compute; reflexivity.
Qed.

(** * Further properties *)

(** ** Splitting paths *)

Lemma split_nonempty (s : string) (sep : ascii) : strings_Split s sep <> [].
Proof.
  destruct s as [|c s]; simpl; [discriminate|].
  destruct (Ascii.eqb c sep); [discriminate|].
  destruct (strings_Split s sep); discriminate.
Qed.

Lemma split_length (s : string) (sep : ascii) :
  length (strings_Split s sep) = S (count_sep sep s).
Proof.
  induction s as [|c s IH]; simpl; [reflexivity|].
  destruct (Ascii.eqb c sep); simpl; [by rewrite IH|].
  destruct (strings_Split s sep) as [|x xs] eqn:E; simpl in *; [discriminate|].
  exact IH.
Qed.

Lemma split_join (s : string) (sep : ascii) :
  strings_Join (strings_Split s sep) sep = s.
Proof.
  induction s as [|c s IH]; simpl; [reflexivity|].
  destruct (Ascii.eqb c sep) eqn:E.
  - apply Ascii.eqb_eq in E. subst c.
    destruct (strings_Split s sep) as [|x xs] eqn:Es;
      [by apply split_nonempty in Es|].
    change (strings_Join ("" :: x :: xs) sep)
      with ("" +:+ String sep (strings_Join (x :: xs) sep)).
    by rewrite IH.
  - destruct (strings_Split s sep) as [|x xs] eqn:Es;
      [by apply split_nonempty in Es|].
    destruct xs as [|y ys].
    + simpl in *. by rewrite IH.
    + change (strings_Join (String c x :: y :: ys) sep)
        with (String c (x +:+ String sep (strings_Join (y :: ys) sep))).
      change (strings_Join (x :: y :: ys) sep)
        with (x +:+ String sep (strings_Join (y :: ys) sep)) in IH.
      by rewrite IH.
Qed.

Lemma split_pieces_have_no_sep (s : string) (sep : ascii) (x : string) :
  x ∈ strings_Split s sep -> contains sep x = false.
Proof.
  revert x. induction s as [|c s IH]; simpl; intros x Hx.
  - apply list_elem_of_singleton in Hx. by subst x.
  - destruct (Ascii.eqb c sep) eqn:E.
    + apply elem_of_cons in Hx as [->|Hx]; [reflexivity|by apply IH].
    + destruct (strings_Split s sep) as [|y ys] eqn:Es;
        [by apply split_nonempty in Es|].
      apply elem_of_cons in Hx as [->|Hx].
      * simpl. rewrite E. apply IH, list_elem_of_here.
      * apply IH. by apply list_elem_of_further.
Qed.

Lemma split_app (a b : string) (sep : ascii) :
  strings_Split (a +:+ String sep b) sep
  = strings_Split a sep ++ strings_Split b sep.
Proof.
  induction a as [|c a IH]; simpl.
  - by rewrite Ascii.eqb_refl.
  - destruct (Ascii.eqb c sep); [by rewrite IH|].
    rewrite IH.
    destruct (strings_Split a sep) as [|x xs] eqn:Es;
      [by apply split_nonempty in Es|].
    reflexivity.
Qed.

Section PathHelpers.
Context {com : Com} {site : Site}.

(** X1.  A path with fewer than 2 + [ignore_leading] slashes is answered
    with "Invalid URL" and two empty strings; no validation rule is
    consulted. *)
Theorem GetOD_short_path (ignore_leading : Z) (r : Request) :
  0 <= ignore_leading ->
  Z.of_nat (count_sep "/" (URL_Path r)) < 2 + ignore_leading ->
  GetOD ignore_leading r = ("", "", Some "Invalid URL").
Proof.
  intros Hi Hc. unfold GetOD. rewrite split_length.
  destruct (Z.ltb_spec (Z.of_nat (S (count_sep "/" (URL_Path r))))
              (3 + ignore_leading)); [reflexivity|lia].
Qed.

(** X2.  What [GetOD] returns without an error are the two path pieces
    after the ignored ones: they passed the owner and file name rule, and
    neither holds a slash. *)
Theorem GetOD_components (ignore_leading : Z) (r : Request)
    (owner fileName : string) :
  0 <= ignore_leading ->
  GetOD ignore_leading r = (owner, fileName, None) ->
  strings_Split (URL_Path r) "/" !! Z.to_nat (1 + ignore_leading) = Some owner
  /\ strings_Split (URL_Path r) "/" !! Z.to_nat (2 + ignore_leading)
     = Some fileName
  /\ ValidateUserFilename owner fileName = None
  /\ contains "/" owner = false /\ contains "/" fileName = false.
Proof.
  intros Hi. unfold GetOD.
  destruct (Z.ltb_spec (Z.of_nat (length (strings_Split (URL_Path r) "/")))
              (3 + ignore_leading)) as [|Hlen]; [discriminate|].
  destruct (ValidateUserFilename _ _) eqn:Hv; [discriminate|].
  intros H. injection H as Ho Hf.
  assert (H1 : strings_Split (URL_Path r) "/" !! Z.to_nat (1 + ignore_leading)
               = Some owner).
  { rewrite <- Ho.
    destruct (nth_lookup_or_length (strings_Split (URL_Path r) "/")
                (Z.to_nat (1 + ignore_leading)) "") as [E|E]; [exact E|lia]. }
  assert (H2 : strings_Split (URL_Path r) "/" !! Z.to_nat (2 + ignore_leading)
               = Some fileName).
  { rewrite <- Hf.
    destruct (nth_lookup_or_length (strings_Split (URL_Path r) "/")
                (Z.to_nat (2 + ignore_leading)) "") as [E|E]; [exact E|lia]. }
  repeat split; try assumption.
  - by rewrite <- Ho, <- Hf.
  - eapply split_pieces_have_no_sep, list_elem_of_lookup_2, H1.
  - eapply split_pieces_have_no_sep, list_elem_of_lookup_2, H2.
Qed.

(** X3.  Whatever follows the database name in the path is ignored. *)
Theorem GetOD_ignores_the_rest (ignore_leading : Z) (r : Request)
    (extra : string) :
  0 <= ignore_leading ->
  2 + ignore_leading <= Z.of_nat (count_sep "/" (URL_Path r)) ->
  GetOD ignore_leading
    (set_URL_Path (URL_Path r +:+ String "/" extra) r)
  = GetOD ignore_leading r.
Proof.
  intros Hi Hc. unfold GetOD. simpl URL_Path.
  rewrite split_app, length_app.
  pose proof (split_length (URL_Path r) "/") as Hl.
  pose proof (split_length extra "/") as Hl'.
  destruct (Z.ltb_spec (Z.of_nat (length (strings_Split (URL_Path r) "/")
                                  + length (strings_Split extra "/")))
              (3 + ignore_leading)); [lia|].
  destruct (Z.ltb_spec (Z.of_nat (length (strings_Split (URL_Path r) "/")))
              (3 + ignore_leading)); [lia|].
  rewrite !app_nth1 by lia. reflexivity.
Qed.

End PathHelpers.

(** ** The URL and form helpers *)

Section FormHelpers.
Context {com : Com} {site : Site}.

(** X4.  The helpers that put several request values together fail
    closed: with an error, every string they return is empty. *)
Theorem helpers_fail_closed (i : Z) (r : Request) (allowGet : bool) (e : string) :
  (forall o f t, GetODT i r = (o, f, t, Some e) -> o = "" /\ f = "" /\ t = "")
  /\ (forall o f c, GetODC i r = (o, f, c, Some e) -> o = "" /\ f = "" /\ c = "")
  /\ (forall o f t c, GetODTC i r = (o, f, t, c, Some e) ->
                      o = "" /\ f = "" /\ t = "" /\ c = "")
  /\ (forall u d c, GetFormUDC r = (u, d, c, Some e) -> u = "" /\ d = "" /\ c = "")
  /\ (forall u fo d, GetUFD r allowGet = (u, fo, d, Some e) ->
                     u = "" /\ fo = "" /\ d = "").
Proof.
  repeat apply conj; intros;
    match goal with Hx : _ = (_, Some e) |- _ => revert Hx end;
    unfold GetODT, GetODC, GetODTC, GetFormUDC, GetUFD;
    repeat (case_match; simplify_eq); intros Hx; by simplify_eq.
Qed.

(** X5.  [GetODTC] is [GetODT] followed by [GetFormCommit]: it succeeds
    exactly when both do, with their values, and otherwise returns the
    error of the first that fails. *)
Theorem GetODTC_is_GetODT_then_commit (i : Z) (r : Request) :
  GetODTC i r =
  match GetODT i r with
  | (o, f, t, None) =>
      match GetFormCommit r with
      | (c, None) => (o, f, t, c, None)
      | (_, Some e) => ("", "", "", "", Some e)
      end
  | (_, _, _, Some e) => ("", "", "", "", Some e)
  end.
Proof.
  unfold GetODTC, GetODT.
  destruct (GetOD i r) as [[o f] [e|]]; [reflexivity|].
  destruct (GetTable r) as [t [e|]]; [reflexivity|].
  destruct (GetFormCommit r) as [c [e|]]; reflexivity.
Qed.

(** X6.  A branch, release or tag name that is returned without an error
    is empty because none was sent, or it is the form value with its URL
    escapes undone and passed the branch name rule; a commit id is taken
    as it was sent. *)
Theorem form_names_are_checked (r : Request) (x : string) :
  (GetFormBranch r = (x, None) ->
   FormValue r "branch" = "" /\ x = ""
   \/ URL.QueryUnescape (FormValue r "branch") = (x, None)
      /\ ValidateBranchName x = None)
  /\ (GetFormRelease r = (x, None) ->
      FormValue r "release" = "" /\ x = ""
      \/ URL.QueryUnescape (FormValue r "release") = (x, None)
         /\ ValidateBranchName x = None)
  /\ (GetFormTag r = (x, None) ->
      FormValue r "tag" = "" /\ x = ""
      \/ URL.QueryUnescape (FormValue r "tag") = (x, None)
         /\ ValidateBranchName x = None)
  /\ (GetFormCommit r = (x, None) ->
      x = FormValue r "commit" /\ (x = "" \/ ValidateCommitID x = None)).
Proof.
  unfold GetFormBranch, GetFormRelease, GetFormTag, GetFormCommit.
  repeat apply conj; repeat (case_match; simplify_eq); intros Hx;
    simplify_eq; auto.
Qed.

End FormHelpers.

(** ** The main handler *)

Lemma contains_count (sep : ascii) (s : string) :
  contains sep s = false <-> count_sep sep s = 0%nat.
Proof.
  induction s as [|c s IH]; simpl; [tauto|].
  destruct (Ascii.eqb c sep); simpl; [split; [discriminate|lia]|exact IH].
Qed.

Lemma split_without_sep (s : string) (sep : ascii) :
  contains sep s = false -> strings_Split s sep = [s].
Proof.
  induction s as [|c s IH]; simpl; [reflexivity|].
  destruct (Ascii.eqb c sep); simpl; [discriminate|].
  intros H. by rewrite (IH H).
Qed.

Section MainHandler.
Context {com : Com} {site : Site}.

(** X7.  [mainHandler] indexes the pieces of the path without checking
    that there are enough of them: it panics exactly on a path that has
    no slash at all. *)
Theorem mainHandler_panics_without_slash (r : Request) :
  mainHandler r = [DoPanic "index out of range"]
  <-> contains "/" (URL_Path r) = false.
Proof.
  rewrite contains_count. unfold mainHandler.
  pose proof (split_length (URL_Path r) "/") as Hl.
  destruct (strings_Split (URL_Path r) "/") as [|a [|b [|c rest]]];
    simpl in *.
  - discriminate.
  - split; [lia|reflexivity].
  - destruct (decide (b = "")); split; try discriminate; lia.
  - split; [|lia].
    repeat (case_match; simplify_eq); discriminate.
Qed.

(** X8.  A path of one piece, "/name", shows that user's page without
    any validation of the name; with a slash behind it, "/name/", the
    name is first validated together with the empty database name, and
    the user page is shown only if that passes. *)
Theorem user_page_paths (r : Request) (u : string) :
  contains "/" u = false ->
  (u <> "" -> URL_Path r = "/" +:+ u ->
   mainHandler r = [DoRender (userPage u)])
  /\ (URL_Path r = "/" +:+ u +:+ "/" ->
      mainHandler r =
      match ValidateUserDB u "" with
      | Some _ => [DoErrorPage StatusBadRequest "Invalid user or database name"]
      | None => [DoRender (userPage u)]
      end).
Proof.
  intros Hu. split.
  - intros Hne Hp. unfold mainHandler. rewrite Hp.
    change (strings_Split ("/" +:+ u) "/") with ("" :: strings_Split u "/").
    rewrite (split_without_sep _ _ Hu). simpl.
    destruct (decide (u = "")); [contradiction|reflexivity].
  - intros Hp. unfold mainHandler. rewrite Hp.
    change (strings_Split ("/" +:+ u +:+ "/") "/")
      with ("" :: strings_Split (u +:+ String "/" "") "/").
    rewrite split_app, (split_without_sep _ _ Hu). simpl.
    destruct (ValidateUserDB u ""); reflexivity.
Qed.

(** X9.  A table name that fails validation does not stop the database
    page: the page is shown without a table. *)
Theorem mainHandler_drops_invalid_table (r : Request) (p0 u d : string)
    (rest : list string) :
  strings_Split (URL_Path r) "/" = p0 :: u :: d :: rest ->
  ValidateUserDB u d = None -> d <> "" ->
  mainHandler r =
  [DoRender (databasePage u d
               match ValidatePGTable (FormValue r "table") with
               | Some _ => ""
               | None => FormValue r "table"
               end)].
Proof.
  intros Hs Hv Hd. unfold mainHandler. rewrite Hs. simpl.
  rewrite Hv. destruct (decide (d = "")); [contradiction|].
  destruct (decide (FormValue r "table" <> "")) as [N|N]; [reflexivity|].
  destruct (decide (FormValue r "table" = "")) as [->|]; [|contradiction].
  by destruct (ValidatePGTable "").
Qed.

End MainHandler.

(** ** CSV download, accounts, preferences, stars *)

Section Accounts.
Context {com : Com} {site : Site}.

(** X10.  [downloadCSVHandler] does not look at the error of the CSV
    reader: whatever rows come back are sent as the attachment, and the
    connection on the stored object stays open. *)
Theorem downloadCSV_ignores_read_error (r : Request) (w : World)
    (dbOwner dbName dbTable bucket id content : string) (dbVersion : Z)
    (resultSet : list (list string)) (readErr : error) :
  GetODTV 2 r = (dbOwner, dbName, dbTable, dbVersion, None) ->
  dbTable <> "" ->
  MinioBucketID dbOwner dbName dbVersion (fst (sessionUser r))
  = (bucket, id, None) ->
  OpenMinioObject_err bucket id = None ->
  ReadSQLiteDBCSV_res (Some (MinioSQLite bucket id)) dbTable
  = (resultSet, readErr) ->
  csv_WriteAll resultSet = (content, None) ->
  downloadCSVHandler r w
  = (Download (url_QueryEscape dbTable +:+ ".csv") "text/csv" content None,
     acquire (MinioSQLite bucket id) w).
Proof.
  intros H1 Ht H2 H3 H4 H5. unfold downloadCSVHandler, OpenMinioObject.
  rewrite H1. destruct (decide (dbTable = "")); [contradiction|].
  rewrite H2, H3. cbv beta iota. by rewrite H4, H5.
Qed.

(** X11.  An account is added only for a registration session in
    progress that carries the identity and the email, and for a submitted
    user name that is not empty, passed validation, is not reserved and
    is not taken. *)
Theorem createUser_adds_checked_names (sess : option (gmap string Attr))
    (r : Request) (auth0ID userName password email : string) :
  DoAddUser auth0ID userName password email ∈ createUserHandler sess r ->
  exists attrs,
    sess = Some attrs
    /\ attrs !! "registrationinprogress" = Some (AttrBool true)
    /\ attrs !! "auth0id" = Some (AttrString auth0ID)
    /\ attrs !! "email" = Some (AttrString email)
    /\ userName = PostFormValue r "username" /\ userName <> ""
    /\ ValidateUser userName = None
    /\ ReservedUsernamesCheck userName = None
    /\ CheckUserExists userName = (false, None)
    /\ AddUser_err auth0ID userName password email = None.
Proof.
  unfold createUserHandler. intros H.
  repeat (case_match; simplify_eq);
    repeat (apply elem_of_cons in H as [H|H]; simplify_eq);
    try (by apply elem_of_nil in H).
  eexists. repeat split; eauto.
  match goal with Hb : negb _ = false |- _ =>
    apply negb_false_iff in Hb; by subst end.
Qed.

(** X12.  [createUserHandler] answers every request once, and it opens
    a login session only as the last step but one of a completed
    registration, after the account was added and the registration
    session removed. *)
Theorem createUser_answers_once (sess : option (gmap string Attr))
    (r : Request) :
  ((exists what, createUserHandler sess r = [DoPanic what])
   \/ length (List.filter is_answer (createUserHandler sess r)) = 1%nat)
  /\ (forall attrs,
        DoSessionAdd attrs ∈ createUserHandler sess r ->
        exists auth0ID userName password email,
          createUserHandler sess r
          = [DoAddUser auth0ID userName password email;
             DoSessionRemove;
             DoSessionAdd {[ "UserName" := AttrString userName ]};
             DoRedirect ("/" +:+ userName) StatusTemporaryRedirect]).
Proof.
  unfold createUserHandler. split.
  - repeat (case_match; simplify_eq); eauto.
  - intros attrs H.
    repeat (case_match; simplify_eq);
      repeat (apply elem_of_cons in H as [H|H]; simplify_eq);
      try (by apply elem_of_nil in H); eauto 10.
Qed.

(** X13.  For an identity without an account whose email is not known
    either, [auth0CallbackHandler] does not stop after it has started the
    registration: it goes on to add a login session for the empty user
    name and redirects a second time, to "/". *)
Theorem auth0Callback_runs_on_after_registration (r : Request)
    (raw email auth0ID : string) (profile : gmap string Attr) :
  oauth2_Exchange r = None -> userinfo_Get r = None ->
  ioutil_ReadAll r = (raw, None) -> json_Unmarshal raw = (profile, None) ->
  profile !! "email" = Some (AttrString email) ->
  profile !! "user_id" = Some (AttrString auth0ID) ->
  UserNameFromAuth0ID auth0ID = ("", None) ->
  CheckEmailExists email = (false, None) ->
  auth0CallbackHandler r
  = [DoSessionAdd
       (<[ "registrationinprogress" := AttrBool true ]>
          (<[ "auth0id" := AttrString auth0ID ]>
             {[ "email" := AttrString email ]}));
     DoRedirect "/selectusername" StatusTemporaryRedirect;
     DoSessionAdd {[ "UserName" := AttrString "" ]};
     DoRedirect "/" StatusTemporaryRedirect].
Proof.
  intros H1 H2 H3 H4 H5 H6 H7 H8. unfold auth0CallbackHandler.
  by rewrite H1, H2, H3, H4, H5, H6, H7, H8.
Qed.

(** X14.  A row preference is stored only for the logged in user, as the
    number the submitted text spells in decimal, within the range of an
    int, and only after the text passed the validation rule. *)
Theorem pref_stores_parsed_number (r : Request) (u : string) (n : Z) :
  DoSetPrefUserMaxRows u n ∈ prefHandler r ->
  Session r = Some (Some u)
  /\ Validate_Var (PostFormValue r "maxrows") "required,numeric,min=1,max=500"
     = None
  /\ strconv_Atoi (PostFormValue r "maxrows") = (n, None)
  /\ GoInt.in_range n.
Proof.
  unfold prefHandler, sessionUser, session_block. intros H.
  repeat (case_match; simplify_eq);
    repeat (apply elem_of_cons in H as [H|H]; simplify_eq);
    try (by apply elem_of_nil in H).
  repeat split; auto;
    match goal with Ha : strconv_Atoi _ = (_, None) |- _ =>
      unfold strconv_Atoi in Ha; repeat (case_match; simplify_eq);
      unfold GoInt.in_range; lia
    end.
Qed.

(** X15.  The answer "-1" of [starToggleHandler] does not say that
    nothing changed: when the star was toggled and only the new count
    could not be read, the star stays toggled and the answer is "-1". *)
Theorem star_toggled_but_count_unknown (r : Request)
    (dbOwner dbName u e : string) (n : Z) :
  GetOD 2 r = (dbOwner, dbName, None) ->
  Session r = Some (Some u) ->
  ToggleDBStar_err u dbOwner dbName = None ->
  DBStars dbOwner dbName = (n, Some e) ->
  starToggleHandler r = [DoToggleDBStar u dbOwner dbName; DoPrint "-1"].
Proof.
  intros H1 H2 H3 H4. unfold starToggleHandler, sessionUser, session_block.
  by rewrite H1, H2, H3, H4.
Qed.

(** X16.  Without a valid session the preference, star and upload
    handlers store nothing: the preference and star handlers make no
    storing call, the upload form answers 401 and nothing else, and the
    upload answers 401 and leaves the state as it was. *)
Theorem no_session_no_update (r : Request) (w : World) (fuel : nat) :
  snd (sessionUser r) = false ->
  List.filter is_update (prefHandler r) = []
  /\ List.filter is_update (starToggleHandler r) = []
  /\ List.filter is_answer (uploadFormHandler r)
     = [DoErrorPage StatusUnauthorized "You need to be logged in"]
  /\ List.filter is_update (uploadFormHandler r) = []
  /\ uploadDataHandler fuel r w
     = Some (ErrorPage StatusUnauthorized "You need to be logged in", w).
Proof.
  intros H. unfold prefHandler, starToggleHandler, uploadFormHandler,
    uploadDataHandler, session_block.
  destruct (sessionUser r) as [u b]. simpl in H. subst b. simpl.
  repeat split; repeat (case_match; simplify_eq); reflexivity.
Qed.

End Accounts.

(** ** The result cache *)

Section Cache.
Context {com : Com}.






(** X19.  The access check comes before the cache: a requester who may
    not read the database gets the error, whatever the cache holds. *)
Theorem visData_checks_access_before_cache (r : Request) (w : World)
    (userName dbName t e : string) (info : SQLiteDBinfo) :
  GetODT 2 r = (userName, dbName, t, None) ->
  vis_params_pass r ->
  CheckUserDBAccess (fst (sessionUser r)) userName dbName = (info, Some e) ->
  visData r w = (ErrorPage StatusBadRequest e, w).
Proof.
  intros H1 (Hx & Hy & Hc & Ht) H3.
  unfold visData. rewrite H1. cbv beta iota zeta.
  by rewrite (validated_or_empty _ Hx), (validated_or_empty _ Hy),
    (validated_or_empty _ Hc), (where_type_passes _ Ht), !keep_nonempty, H3.
Qed.


End Cache.

(** ** What the read handlers touch *)

Section ReadHandlers.
Context {com : Com}.

(** X21.  A table view reads and counts only a table of the database's
    table list: the requested one, or the first of the list when none
    was requested. *)
Theorem table_view_reads_listed_table (r : Request) (w : World)
    (t bucket id t' : string) (tables : list string) (q : Query) :
  table_view_lists r t bucket id tables ->
  q ∈ queries (snd (tableViewHandler r w)) -> q ∉ queries w ->
  query_table q = Some t' ->
  t' ∈ tables /\ (t <> "" -> t' = t) /\ (t = "" -> head tables = Some t').
Proof.
  intros H Hin Hold Hq.
  rewrite (table_view_run r w t bucket id tables H) in Hin. cbv zeta in Hin.
  assert (Hw : queries (snd (OpenMinioObject bucket id w)) = queries w)
    by apply queries_OpenMinioObject.
  destruct tables as [|table0 tl].
  - simpl in Hin. rewrite Hw in Hin.
    apply elem_of_app in Hin as [Hin|Hin]; [contradiction|].
    apply list_elem_of_singleton in Hin. by subst q.
  - destruct (bool_decide (t <> "") && negb (tablePresent t (table0 :: tl)))
      eqn:Ec.
    + simpl in Hin. rewrite Hw in Hin.
      apply elem_of_app in Hin as [Hin|Hin]; [contradiction|].
      apply list_elem_of_singleton in Hin. by subst q.
    + assert (Ht : t' = if decide (t = "") then table0 else t).
      { repeat (case_match; simplify_eq); simpl in Hin; rewrite Hw in Hin;
          rewrite ?elem_of_app, ?elem_of_cons, ?elem_of_nil in Hin;
          destruct_or!; simplify_eq; try contradiction; try reflexivity;
          simpl in Hq; by simplify_eq. }
      subst t'. destruct (decide (t = "")) as [->|N].
      * split; [apply list_elem_of_here|]. by split.
      * split; [|by split].
        apply andb_false_iff in Ec as [Ec|Ec].
        -- apply bool_decide_eq_false_1 in Ec. by destruct Ec.
        -- apply negb_false_iff in Ec. by apply tablePresent_spec.
Qed.

Lemma world_eta (w : World) :
  mkWorld (open_handles w) (queries w) (cache w) (databases w) (objects w)
    (rng_draws w) = w.
Proof. by destruct w. Qed.

(** X22.  The handlers that only read store nothing: the table view
    leaves the cache, the metadata rows, the stored objects and the random
    source alone, [visData] all of these but the cache, and after a
    download the whole state is as it was before. *)
Theorem read_handlers_store_nothing (r : Request) (w : World) :
  (cache (snd (tableViewHandler r w)) = cache w
   /\ databases (snd (tableViewHandler r w)) = databases w
   /\ objects (snd (tableViewHandler r w)) = objects w
   /\ rng_draws (snd (tableViewHandler r w)) = rng_draws w)
  /\ (databases (snd (visData r w)) = databases w
      /\ objects (snd (visData r w)) = objects w
      /\ rng_draws (snd (visData r w)) = rng_draws w)
  /\ snd (downloadHandler r w) = w.
Proof.
  split; [|split].
  - unfold tableViewHandler, OpenMinioObject, Tables, ReadSQLiteDB,
      GetSQLiteRowCount.
    repeat (case_match; simplify_eq); simpl; auto.
  - unfold visData, GetCachedData, OpenMinioObject, Tables, ReadSQLiteDBCols,
      ReadSQLiteDB, CacheData.
    repeat (case_match; simplify_eq); simpl; auto.
  - unfold downloadHandler, MinioHandle, MinioHandleClose, defer.
    repeat (case_match; simplify_eq); simpl; try reflexivity.
    match goal with |- context [decide (?h = ?h)] =>
      destruct (decide (h = h)); [|contradiction] end.
    apply world_eta.
Qed.

(** X23.  Every table view that gets as far as opening the object adds
    one open connection: after [n] such requests [n] more are open. *)
Theorem table_view_leak_grows (r : Request) (w : World) (t bucket id : string)
    (tables : list string) (n : nat) :
  table_view_lists r t bucket id tables ->
  OpenMinioObject_err bucket id = None ->
  open_handles (Nat.iter n (fun w => snd (tableViewHandler r w)) w)
  = replicate n (MinioSQLite bucket id) ++ open_handles w.
Proof.
  intros H Ho. induction n as [|n IH]; [reflexivity|].
  simpl. rewrite (table_view_keeps_handle r _ t bucket id tables H Ho).
  by rewrite IH.
Qed.


End ReadHandlers.

(** ** More on uploads *)

Section UploadMore.
Context {com : Com}.

Lemma genMinioID_checked (fuel : nat) (u : string) (w w' : World)
    (minioID : string) (err : error) :
  genMinioID fuel u w = Some (minioID, err, w') ->
  exists k,
    (k < fuel)%nat
    /\ minioID = attempt (rng_draws w + k)
    /\ w' = Nat.iter (S k) draw w
    /\ (forall i, (rng_draws w <= i < rng_draws w + k)%nat ->
                  CheckMinioIDAvail u (attempt i) = (false, None))
    /\ (err = None -> CheckMinioIDAvail u minioID = (true, None)).
Proof.
  revert w. induction fuel as [|fuel IH]; intros w; simpl; [discriminate|].
  fold (attempt (rng_draws w)).
  destruct (CheckMinioIDAvail u (attempt (rng_draws w))) as [ok [e|]] eqn:Hc.
  - intros H. simplify_eq. exists 0%nat.
    rewrite Nat.add_0_r. repeat split; [lia|intros i Hi; lia|discriminate].
  - destruct ok.
    + intros H. simplify_eq. exists 0%nat.
      rewrite Nat.add_0_r. repeat split; [lia|intros i Hi; lia|auto].
    + intros H. apply IH in H as (k & Hk & Hid & Hw & Htaken & Hfree).
      simpl rng_draws in *. exists (S k).
      replace (rng_draws w + S k)%nat with (S (rng_draws w) + k)%nat by lia.
      repeat split; [lia|exact Hid| |intros i Hi|exact Hfree].
      * rewrite Hw. by rewrite iter_draw_succ.
      * destruct (decide (i = rng_draws w)) as [->|N]; [exact Hc|].
        apply Htaken. lia.
Qed.

(** X25.  Whatever name the loop returns was generated by a draw of
    this run, all earlier draws of the run were found taken, and when there is no
    error the check said that the name is free. *)
Theorem generated_name_was_checked (fuel : nat) (u : string) (w w' : World)
    (minioID : string) (err : error) :
  genMinioID fuel u w = Some (minioID, err, w') ->
  exists k,
    (k < fuel)%nat
    /\ minioID = attempt (rng_draws w + k)
    /\ w' = Nat.iter (S k) draw w
    /\ (forall i, (rng_draws w <= i < rng_draws w + k)%nat ->
                  CheckMinioIDAvail u (attempt i) = (false, None))
    /\ (err = None -> CheckMinioIDAvail u minioID = (true, None)).
Proof.
  revert w. induction fuel as [|fuel IH]; intros w; simpl; [discriminate|].
  fold (attempt (rng_draws w)).
  destruct (CheckMinioIDAvail u (attempt (rng_draws w))) as [ok [e|]] eqn:Hc.
  - intros H. simplify_eq. exists 0%nat.
    rewrite Nat.add_0_r. repeat split; [lia|intros i Hi; lia|discriminate].
  - destruct ok.
    + intros H. simplify_eq. exists 0%nat.
      rewrite Nat.add_0_r. repeat split; [lia|intros i Hi; lia|auto].
    + intros H. apply IH in H as (k & Hk & Hid & Hw & Htaken & Hfree).
      simpl rng_draws in *. exists (S k).
      replace (rng_draws w + S k)%nat with (S (rng_draws w) + k)%nat by lia.
      repeat split; [lia|exact Hid| |intros i Hi|exact Hfree].
      * rewrite Hw. by rewrite iter_draw_succ.
      * destruct (decide (i = rng_draws w)) as [->|N]; [exact Hc|].
        apply Htaken. lia.
Qed.

(** X26.  An upload that has ended has closed the connection it opened
    on the scratch file, whichever way it ended, and has not touched the cache. *)
Theorem upload_closes_its_connection (fuel : nat) (r : Request) (w w' : World)
    (resp : Response) :
  uploadDataHandler fuel r w = Some (resp, w') ->
  open_handles w' = open_handles w /\ cache w' = cache w.
Proof.
  unfold uploadDataHandler, defer_opt, sqlite_Open, sqlite_Close, Tables,
    StoreMinioObject, AddDatabase.
  intros H.
  repeat (case_match; simplify_eq); try (split; reflexivity);
    try match goal with
        | Hg : genMinioID _ _ _ = Some _ |- _ =>
            apply genMinioID_world in Hg as (Ho & _ & Hc & _ & _)
        end;
    simpl in *; rewrite ?Ho, ?Hc; simpl;
    match goal with |- context [decide (?h = ?h)] =>
      destruct (decide (h = h)); [|contradiction] end;
    split; reflexivity.
Qed.

(** X27.  A successful upload has stored one object, with the bytes of
    the file, under a name the availability check found free, and one
    metadata row that points at that object and carries the size the
    store reported and the digest of the bytes. *)
Theorem upload_stores_object_and_row (fuel : nat) (r : Request) (w w' : World)
    (u : string) :
  uploadDataHandler fuel r w = Some (UploadSucceeded u, w') ->
  exists handler o rec,
    FormFile r = Some handler
    /\ objects w' = objects w ++ [o]
    /\ databases w' = databases w ++ [rec]
    /\ so_content o = Content handler /\ Content handler <> ""
    /\ CheckMinioIDAvail u (so_id o) = (true, None)
    /\ db_owner rec = u
    /\ db_bucket rec = so_bucket o /\ db_minioID rec = so_id o
    /\ db_size rec = fst (StoreMinioObject_res o)
    /\ db_sha256 rec = sha256_Sum256 (Content handler).
Proof.
  unfold uploadDataHandler, defer_opt, sqlite_Open, sqlite_Close, Tables,
    StoreMinioObject, AddDatabase.
  intros H.
  repeat (case_match; simplify_eq).
  match goal with
  | Hg : genMinioID _ _ _ = Some _ |- _ =>
      pose proof (genMinioID_checked _ _ _ _ _ _ Hg)
        as (k & _ & _ & _ & _ & Hfree);
      apply genMinioID_world in Hg as (_ & _ & _ & Hd & Hob)
  end.
  eexists _, _, _. split; [reflexivity|].
  simpl. rewrite Hd, Hob. simpl.
  repeat split; auto.
  - intros E.
    match goal with Hz : (Z.of_nat (String.length _) =? 0) = false |- _ =>
      rewrite E in Hz; discriminate end.
  - match goal with Hs : StoreMinioObject_res _ = _ |- _ => by rewrite Hs end.
Qed.

(** X28.  An upload that ends in any other way has added no metadata
    row; the one case in which it leaves an object behind is the failure of the
    metadata insert after the object was stored. *)
Theorem failed_upload_adds_no_row (fuel : nat) (r : Request) (w w' : World)
    (resp : Response) :
  uploadDataHandler fuel r w = Some (resp, w') ->
  (forall u, resp <> UploadSucceeded u) ->
  databases w' = databases w
  /\ (objects w' = objects w
      \/ resp = ErrorPage StatusInternalServerError
                  "Adding database details to PostgreSQL failed"
         /\ exists o, objects w' = objects w ++ [o]).
Proof.
  unfold uploadDataHandler, defer_opt, sqlite_Open, sqlite_Close, Tables,
    StoreMinioObject, AddDatabase.
  intros H Hne.
  repeat (case_match; simplify_eq); try (split; [reflexivity|left; reflexivity]);
    try (exfalso; by eapply Hne);
    match goal with
    | Hg : genMinioID _ _ _ = Some _ |- _ =>
        apply genMinioID_world in Hg as (_ & _ & _ & Hd & Hob)
    end;
    simpl in *; rewrite ?Hd, ?Hob; split; eauto.
Qed.

End UploadMore.

(** ** The further properties on the concrete installation *)

(** "/x/table/alice" has one piece too few. *)
Lemma GetOD_short_path_witness :
  GetOD (com := Demo.roomy) 2 (Demo.request "/x/table/alice" [] None)
  = ("", "", Some "Invalid URL").
Proof.
  apply (GetOD_short_path (com := Demo.roomy)); [lia|vm_compute; reflexivity].
Defined.

(** "/x/table/alice/d.db". *)
Lemma GetOD_components_witness :
  strings_Split "/x/table/alice/d.db" "/" !! 3%nat = Some "alice"
  /\ strings_Split "/x/table/alice/d.db" "/" !! 4%nat = Some "d.db"
  /\ ValidateUserFilename (Com := Demo.roomy) "alice" "d.db" = None
  /\ contains "/" "alice" = false /\ contains "/" "d.db" = false.
Proof.
  apply (GetOD_components (com := Demo.roomy) 2 (Demo.view "d.db" "t" None));
    [lia|vm_compute; reflexivity].
Defined.

(** "/x/table/alice/d.db/tables/more" names the same database. *)
Lemma GetOD_ignores_the_rest_witness :
  GetOD (com := Demo.roomy) 2
    (set_URL_Path ("/x/table/alice/d.db" +:+ String "/" "tables/more")
       (Demo.view "d.db" "t" None))
  = GetOD (com := Demo.roomy) 2 (Demo.view "d.db" "t" None).
Proof.
  apply (GetOD_ignores_the_rest (com := Demo.roomy) 2
           (Demo.view "d.db" "t" None) "tables/more");
    [lia|vm_compute; discriminate].
Defined.

(** A table name with a blank in it. *)
Lemma helpers_fail_closed_witness :
  GetODT (com := Demo.roomy) 2 (Demo.view "d.db" "bad name" None)
  = ("", "", "", Some "Invalid table name").
Proof.
  destruct (GetODT (com := Demo.roomy) 2 (Demo.view "d.db" "bad name" None))
    as [[[o f] t] e] eqn:E.
  assert (e = Some "Invalid table name") as -> by (vm_compute in E; congruence).
  destruct (proj1 (helpers_fail_closed (com := Demo.roomy) (site := DemoSite.site)
                     2 (Demo.view "d.db" "bad name" None) false
                     "Invalid table name") o f t E) as (-> & -> & ->).
  reflexivity.
Defined.

(** The branch "rel_1", sent as "rel%5F1". *)
Lemma form_names_are_checked_witness :
  URL.QueryUnescape "rel%5F1" = ("rel_1", None)
  /\ ValidateBranchName (Site := DemoSite.site) "rel_1" = None.
Proof.
  destruct (proj1 (form_names_are_checked (site := DemoSite.site)
                     (Demo.request "/" [("branch", "rel%5F1")] None) "rel_1"))
    as [[H _]|H].
  - vm_compute. reflexivity.
  - vm_compute in H. discriminate.
  - exact H.
Defined.

(** The path "x". *)
Lemma mainHandler_panics_without_slash_witness :
  mainHandler (com := Demo.roomy) (site := DemoSite.site)
    (Demo.request "x" [] None) = [DoPanic "index out of range"].
Proof.
  apply (proj2 (mainHandler_panics_without_slash (com := Demo.roomy)
                  (site := DemoSite.site) (Demo.request "x" [] None))).
  reflexivity.
Defined.

(** A name with a blank in it, which the validation rule turns down. *)
Lemma user_page_paths_witness :
  mainHandler (com := Demo.roomy) (site := DemoSite.site)
    (Demo.request "/al ice" [] None) = [DoRender (userPage "al ice")]
  /\ mainHandler (com := Demo.roomy) (site := DemoSite.site)
       (Demo.request "/al ice/" [] None)
     = [DoErrorPage StatusBadRequest "Invalid user or database name"].
Proof.
  split.
  - apply (proj1 (user_page_paths (com := Demo.roomy) (site := DemoSite.site)
                    (Demo.request "/al ice" [] None) "al ice" eq_refl));
      [discriminate|reflexivity].
  - apply (proj2 (user_page_paths (com := Demo.roomy) (site := DemoSite.site)
                    (Demo.request "/al ice/" [] None) "al ice" eq_refl)).
    reflexivity.
Defined.

(** "/alice/d.db?table=bad name". *)
Lemma mainHandler_drops_invalid_table_witness :
  mainHandler (com := Demo.roomy) (site := DemoSite.site)
    (Demo.request "/alice/d.db" [("table", "bad name")] None)
  = [DoRender (databasePage "alice" "d.db" "")].
Proof.
  apply (mainHandler_drops_invalid_table (com := Demo.roomy)
           (site := DemoSite.site)
           (Demo.request "/alice/d.db" [("table", "bad name")] None)
           "" "alice" "d.db" []);
    [reflexivity|reflexivity|discriminate].
Defined.

(** The CSV of a table the database does not have: the reader reports
    the missing table, and an empty attachment is sent. *)
Lemma downloadCSV_ignores_read_error_witness :
  ReadSQLiteDBCSV_res (Site := DemoSite.site) Demo.sdb1 "nope"
  = ([], Some "no such table: nope")
  /\ downloadCSVHandler (com := Demo.roomy) (site := DemoSite.site)
       (Demo.view "d.db" "nope" None) Demo.w0
     = (Download "nope.csv" "text/csv" "" None,
        acquire (MinioSQLite "alice-bucket" "obj1.db") Demo.w0).
Proof.
  split; [vm_compute; reflexivity|].
  apply (downloadCSV_ignores_read_error (com := Demo.roomy)
           (site := DemoSite.site) (Demo.view "d.db" "nope" None) Demo.w0
           "alice" "d.db" "nope" "alice-bucket" "obj1.db" "" 0 []
           (Some "no such table: nope"));
    try (vm_compute; reflexivity).
  discriminate.
Defined.

(** "carol" completes her registration. *)
Lemma createUser_adds_checked_names_witness :
  exists attrs,
    Some DemoSite.carol_registration = Some attrs
    /\ attrs !! "registrationinprogress" = Some (AttrBool true)
    /\ attrs !! "auth0id" = Some (AttrString "auth0|carol")
    /\ attrs !! "email" = Some (AttrString "carol@example.org")
    /\ "carol"
       = PostFormValue (DemoSite.post "/register" [("username", "carol")] None)
           "username"
    /\ "carol" <> ""
    /\ ValidateUser (Site := DemoSite.site) "carol" = None
    /\ ReservedUsernamesCheck (Site := DemoSite.site) "carol" = None
    /\ CheckUserExists (Site := DemoSite.site) "carol" = (false, None)
    /\ AddUser_err (Site := DemoSite.site) "auth0|carol" "carol"
         (RandomString32 (Site := DemoSite.site)) "carol@example.org" = None.
Proof.
  apply (createUser_adds_checked_names (site := DemoSite.site)).
  replace (createUserHandler _ _)
    with [DoAddUser "auth0|carol" "carol" (RandomString32 (Site := DemoSite.site))
            "carol@example.org";
          DoSessionRemove;
          DoSessionAdd {[ "UserName" := AttrString "carol" ]};
          DoRedirect "/carol" StatusTemporaryRedirect]
    by (vm_compute; reflexivity).
  apply list_elem_of_here.
Defined.

(** The login session of "carol" comes at the end of her registration. *)
Lemma createUser_answers_once_witness :
  exists auth0ID userName password email,
    createUserHandler (site := DemoSite.site)
      (Some DemoSite.carol_registration)
      (DemoSite.post "/register" [("username", "carol")] None)
    = [DoAddUser auth0ID userName password email;
       DoSessionRemove;
       DoSessionAdd {[ "UserName" := AttrString userName ]};
       DoRedirect ("/" +:+ userName) StatusTemporaryRedirect].
Proof.
  apply (proj2 (createUser_answers_once (site := DemoSite.site)
                  (Some DemoSite.carol_registration)
                  (DemoSite.post "/register" [("username", "carol")] None))
           {[ "UserName" := AttrString "carol" ]}).
  replace (createUserHandler _ _)
    with [DoAddUser "auth0|carol" "carol" (RandomString32 (Site := DemoSite.site))
            "carol@example.org";
          DoSessionRemove;
          DoSessionAdd {[ "UserName" := AttrString "carol" ]};
          DoRedirect "/carol" StatusTemporaryRedirect]
    by (vm_compute; reflexivity).
  do 2 apply list_elem_of_further. apply list_elem_of_here.
Defined.

(** "carol" comes back from the identity provider for the first time. *)
Lemma auth0Callback_runs_on_after_registration_witness :
  auth0CallbackHandler (site := DemoSite.site)
    (Demo.request "/x/callback" [("code", "c0de")] None)
  = [DoSessionAdd DemoSite.carol_registration;
     DoRedirect "/selectusername" StatusTemporaryRedirect;
     DoSessionAdd {[ "UserName" := AttrString "" ]};
     DoRedirect "/" StatusTemporaryRedirect].
Proof.
  apply (auth0Callback_runs_on_after_registration (site := DemoSite.site)
           (Demo.request "/x/callback" [("code", "c0de")] None)
           "(profile of carol)" "carol@example.org" "auth0|carol"
           DemoSite.carol_profile);
    vm_compute; reflexivity.
Defined.

(** "bob" sets his preference to 25. *)
Lemma pref_stores_parsed_number_witness :
  Session (DemoSite.post "/pref" [("maxrows", "25")] (Some "bob"))
  = Some (Some "bob")
  /\ Validate_Var (Site := DemoSite.site)
       (PostFormValue (DemoSite.post "/pref" [("maxrows", "25")] (Some "bob"))
          "maxrows")
       "required,numeric,min=1,max=500" = None
  /\ strconv_Atoi
       (PostFormValue (DemoSite.post "/pref" [("maxrows", "25")] (Some "bob"))
          "maxrows") = (25, None)
  /\ GoInt.in_range 25.
Proof.
  apply (pref_stores_parsed_number (site := DemoSite.site)).
  replace (prefHandler _)
    with [DoSetPrefUserMaxRows "bob" 25;
          DoRedirect "/bob" StatusTemporaryRedirect]
    by (vm_compute; reflexivity).
  apply list_elem_of_here.
Defined.

(** "bob" stars a database whose star count cannot be read. *)
Lemma star_toggled_but_count_unknown_witness :
  starToggleHandler (com := Demo.roomy) (site := DemoSite.site)
    (Demo.request "/x/star/alice/gone.db" [] (Some "bob"))
  = [DoToggleDBStar "bob" "alice" "gone.db"; DoPrint "-1"].
Proof.
  apply (star_toggled_but_count_unknown (com := Demo.roomy)
           (site := DemoSite.site)
           (Demo.request "/x/star/alice/gone.db" [] (Some "bob"))
           "alice" "gone.db" "bob" "Database query failure" 0);
    vm_compute; reflexivity.
Defined.

(** An anonymous visitor. *)
Lemma no_session_no_update_witness :
  List.filter is_update
    (prefHandler (site := DemoSite.site)
       (DemoSite.post "/pref" [("maxrows", "25")] None)) = []
  /\ List.filter is_update
       (starToggleHandler (com := Demo.roomy) (site := DemoSite.site)
          (DemoSite.post "/pref" [("maxrows", "25")] None)) = []
  /\ List.filter is_answer
       (uploadFormHandler (DemoSite.post "/pref" [("maxrows", "25")] None))
     = [DoErrorPage StatusUnauthorized "You need to be logged in"]
  /\ List.filter is_update
       (uploadFormHandler (DemoSite.post "/pref" [("maxrows", "25")] None))
     = []
  /\ uploadDataHandler (com := Demo.roomy) 1
       (DemoSite.post "/pref" [("maxrows", "25")] None) Demo.w0
     = Some (ErrorPage StatusUnauthorized "You need to be logged in", Demo.w0).
Proof.
  apply (no_session_no_update (com := Demo.roomy) (site := DemoSite.site)).
  reflexivity.
Defined.



(** "bob" asks for alice's private database, and the cache holds an
    entry under the key of his request. *)
Lemma visData_checks_access_before_cache_witness :
  let r := Demo.request "/x/visdata/alice/secret.db" [("table", "s")]
             (Some "bob") in
  let w := mkWorld [] []
             {[ vis_cache_key r "alice" "secret.db" "s"
                := "{cached}" ]} [] [] 0 in
  visData (com := Demo.roomy) r w
  = (ErrorPage StatusBadRequest "The requested database doesn't exist", w).
Proof.
  intros r w.
  apply (visData_checks_access_before_cache (com := Demo.roomy) r w
           "alice" "secret.db" "s" _ (mkDBinfo "" "" [])).
  - vm_compute. reflexivity.
  - repeat split; try (left; vm_compute; reflexivity).
  - vm_compute. reflexivity.
Defined.

(** A table view without a table name reads "t", the first table. *)
Lemma table_view_reads_listed_table_witness :
  "t" ∈ Demo.d_tables
  /\ ("" <> "" -> "t" = "") /\ ("" = "" -> head Demo.d_tables = Some "t").
Proof.
  apply (table_view_reads_listed_table (com := Demo.roomy)
           (Demo.view "d.db" "" None) Demo.w0 "" "alice-bucket" "obj1.db" "t"
           Demo.d_tables (QReadSQLiteDB Demo.sdb1 "t" 10)).
  - exists "alice", "d.db", 0.
    repeat split; try (vm_compute; reflexivity). discriminate.
  - replace (queries _)
      with [QTables Demo.sdb1; QReadSQLiteDB Demo.sdb1 "t" 10;
            QGetSQLiteRowCount Demo.sdb1 "t"] by (vm_compute; reflexivity).
    apply list_elem_of_further, list_elem_of_here.
  - apply not_elem_of_nil.
  - reflexivity.
Defined.

(** Three table views by "bob". *)
Lemma table_view_leak_grows_witness :
  open_handles
    (Nat.iter 3
       (fun w => snd (tableViewHandler (com := Demo.roomy)
                        (Demo.view "d.db" "u" (Some "bob")) w)) Demo.w0)
  = replicate 3 (MinioSQLite "alice-bucket" "obj1.db") ++ open_handles Demo.w0.
Proof.
  apply (table_view_leak_grows (com := Demo.roomy)
           (Demo.view "d.db" "u" (Some "bob")) Demo.w0 "u" "alice-bucket"
           "obj1.db" Demo.d_tables 3).
  - exists "alice", "d.db", 0.
    repeat split; try (vm_compute; reflexivity). discriminate.
  - reflexivity.
Defined.


(** The first two names are taken, the third is free. *)
Lemma generated_name_was_checked_witness :
  exists k,
    (k < 3)%nat
    /\ "rnd2.db" = attempt (com := Demo.busy) (rng_draws Demo.w0 + k)
    /\ Nat.iter 3 draw Demo.w0 = Nat.iter (S k) draw Demo.w0
    /\ (forall i, (rng_draws Demo.w0 <= i < rng_draws Demo.w0 + k)%nat ->
                  CheckMinioIDAvail (Com := Demo.busy) "alice"
                    (attempt (com := Demo.busy) i) = (false, None))
    /\ ((None : error) = None ->
        CheckMinioIDAvail (Com := Demo.busy) "alice" "rnd2.db" = (true, None)).
Proof.
  apply (generated_name_was_checked (com := Demo.busy) 3 "alice" Demo.w0).
  vm_compute. reflexivity.
Defined.

(** The upload of "d.db" by "alice". *)
Lemma upload_closes_its_connection_witness :
  exists w',
    uploadDataHandler (com := Demo.roomy) 1 (Demo.upload "alice" Demo.d_file)
      Demo.w0 = Some (UploadSucceeded "alice", w')
    /\ open_handles w' = open_handles Demo.w0 /\ cache w' = cache Demo.w0.
Proof.
  assert (E : exists w',
             uploadDataHandler (com := Demo.roomy) 1
               (Demo.upload "alice" Demo.d_file) Demo.w0
             = Some (UploadSucceeded "alice", w')) by (vm_compute; eauto).
  destruct E as [w' E]. exists w'. split; [exact E|].
  apply (upload_closes_its_connection (com := Demo.roomy) 1
           (Demo.upload "alice" Demo.d_file) Demo.w0 w'
           (UploadSucceeded "alice") E).
Defined.

Lemma upload_stores_object_and_row_witness :
  exists w' handler o rec,
    uploadDataHandler (com := Demo.busy) 3 (Demo.upload "alice" Demo.d_file)
      Demo.w0 = Some (UploadSucceeded "alice", w')
    /\ FormFile (Demo.upload "alice" Demo.d_file) = Some handler
    /\ objects w' = objects Demo.w0 ++ [o]
    /\ databases w' = databases Demo.w0 ++ [rec]
    /\ so_content o = Content handler /\ Content handler <> ""
    /\ CheckMinioIDAvail (Com := Demo.busy) "alice" (so_id o) = (true, None)
    /\ db_owner rec = "alice"
    /\ db_bucket rec = so_bucket o /\ db_minioID rec = so_id o
    /\ db_size rec = fst (StoreMinioObject_res (Com := Demo.busy) o)
    /\ db_sha256 rec = sha256_Sum256 (Com := Demo.busy) (Content handler).
Proof.
  assert (E : exists w',
             uploadDataHandler (com := Demo.busy) 3
               (Demo.upload "alice" Demo.d_file) Demo.w0
             = Some (UploadSucceeded "alice", w')) by (vm_compute; eauto).
  destruct E as [w' E]. exists w'.
  destruct (upload_stores_object_and_row (com := Demo.busy) 3
              (Demo.upload "alice" Demo.d_file) Demo.w0 w' "alice" E)
    as (handler & o & rec & H).
  exists handler, o, rec. split; [exact E|exact H].
Defined.

(** The metadata store refuses the row: the stored object stays behind. *)
Lemma failed_upload_adds_no_row_witness :
  exists resp w',
    uploadDataHandler (com := DemoSite.refusing) 1
      (Demo.upload "alice" Demo.d_file) Demo.w0 = Some (resp, w')
    /\ databases w' = databases Demo.w0
    /\ (objects w' = objects Demo.w0
        \/ resp = ErrorPage StatusInternalServerError
                    "Adding database details to PostgreSQL failed"
           /\ exists o, objects w' = objects Demo.w0 ++ [o]).
Proof.
  assert (E : exists w',
             uploadDataHandler (com := DemoSite.refusing) 1
               (Demo.upload "alice" Demo.d_file) Demo.w0
             = Some (ErrorPage StatusInternalServerError
                       "Adding database details to PostgreSQL failed", w'))
    by (vm_compute; eauto).
  destruct E as [w' E].
  exists (ErrorPage StatusInternalServerError
            "Adding database details to PostgreSQL failed"), w'.
  split; [exact E|].
  apply (failed_upload_adds_no_row (com := DemoSite.refusing) 1
           (Demo.upload "alice" Demo.d_file) Demo.w0 w' _ E).
  intros u. discriminate.
Defined.
